(** * getRates: a shallow embedding of [src/index.js]

    The program reads a cached exchange-rate snapshot, decides whether it is
    still fresh, otherwise fetches a new one over HTTP with an API key read
    from a file, and prints the EUR/AUD cross rates.

    JavaScript Numbers are IEEE 754 binary64 values: they are modelled by the
    primitive floats of the kernel, whose operations are specified by
    [SpecFloat].  JavaScript strings are sequences of UTF-16 code units.  The
    values [JSON.parse] can produce are an inductive type; objects are finite
    maps from property names to values.  Console output, the HTTP request and
    the cache write are events of a trace; exceptions are explicit. *)

From Stdlib Require Import ZArith Lia List String Ascii Floats.
From stdpp Require Import gmap strings list pretty.

#[local] Set Warnings "-register-all,-inexact-float".
#[local] Open Scope Z_scope.

(** ** Strings *)

(** A JavaScript string: its UTF-16 code units. *)
Definition jsstring := list N.

(** A string literal of the source (all of them are ASCII). *)
Definition lit (s : string) : jsstring :=
  (λ c, N_of_ascii c) <$> list_ascii_of_string s.

(** [WhiteSpace] and [LineTerminator] code units, the ones
    [String.prototype.trim] removes. *)
Definition is_white_space (c : N) : bool :=
  (bool_decide (c ∈ [9; 10; 11; 12; 13; 32; 160; 5760; 8232; 8233; 8239;
                     8287; 12288; 65279]%N)
   || ((8192 <=? c) && (c <=? 8202)))%N.

Fixpoint trim_start (s : jsstring) : jsstring :=
  match s with
  | c :: s' => if is_white_space c then trim_start s' else s
  | [] => []
  end.

(** [s.trim()] *)
Definition trim (s : jsstring) : jsstring :=
  rev (trim_start (rev (trim_start s))).

(** ** Values and exceptions *)

Inductive value :=
| JUndefined
| JNull
| JBool (b : bool)
| JNum (x : float)
| JStr (s : jsstring)
| JArr (l : list value)
| JObj (m : gmap (list N) value).

Inductive exn :=
| FsError (errno : Z)   (* what [fs.readFileSync] throws, [fs.writeFile] reports *)
| SyntaxError           (* [JSON.parse] on malformed text *)
| TypeError             (* a property of [null], an object with no primitive value *)
| Error (msg : string)  (* [new Error(msg)] *)
| RequestError.         (* the ['error'] event of the HTTP request *)

(** [err.errno]: only file system errors carry one. *)
Definition errno_of (e : exn) : option Z :=
  match e with
  | FsError n => Some n
  | _ => None
  end.

Inductive res (A : Type) :=
| Ok (a : A)
| Throw (e : exn).
Arguments Ok {A} a.
Arguments Throw {A} e.

#[export] Instance res_ret : MRet res := λ A a, Ok a.
#[export] Instance res_bind : MBind res := λ A B f m,
  match m with
  | Ok a => f a
  | Throw e => Throw e
  end.

(** What the JavaScript runtime provides and the program only calls. *)
Record runtime := {
  (** [JSON.parse]: [None] is a thrown [SyntaxError]. *)
  JSON_parse : jsstring → option value;
  (** [StringToNumber], the numeric reading of a string. *)
  StringToNumber : jsstring → float;
  (** [Number::toString], the canonical text of a Number. *)
  NumberToString : float → jsstring;
}.

(** ** Numbers *)

(** The Number of an integer (exact below 2^53 in magnitude). *)
Definition Z2F (z : Z) : float := SF2Prim (binary_normalize prec emax z 0 false).

(** [ToBoolean] of a string, and of any value *)
Definition truthy_string (s : jsstring) : bool := negb (bool_decide (s = [])).

Definition truthy (v : value) : bool :=
  match v with
  | JUndefined | JNull => false
  | JBool b => b
  | JNum x => negb ((x =? 0)%float || is_nan x)
  | JStr s => truthy_string s
  | JArr _ | JObj _ => true
  end.

(** [v.k] for the property names the program reads ([rates], [AUD], [EUR],
    [timestamp], [error]): none of them is a built-in member of a string, a
    number, a boolean, an array or [Object.prototype], so only the own
    properties of an object answer. *)
Definition getProp (v : value) (k : string) : res value :=
  match v with
  | JUndefined | JNull => Throw TypeError
  | JObj m => Ok (default JUndefined (m !! lit k))
  | _ => Ok JUndefined
  end.

Section Conversions.
Context (rt : runtime).

(** [ToString] of an array element inside [Array.prototype.join], and the
    join itself with separator [","].  A parsed object has no callable
    member of its own: one with an own [toString] has no primitive value. *)
Fixpoint elementToString (v : value) : res jsstring :=
  match v with
  | JUndefined | JNull => Ok []
  | JBool true => Ok (lit "true")
  | JBool false => Ok (lit "false")
  | JNum x => Ok (NumberToString rt x)
  | JStr s => Ok s
  | JArr l =>
      (fix join (l : list value) : res jsstring :=
         match l with
         | [] => Ok []
         | [v] => elementToString v
         | v :: l' =>
             match elementToString v, join l' with
             | Ok s, Ok s' => Ok (s ++ lit "," ++ s')
             | Throw e, _ => Throw e
             | _, Throw e => Throw e
             end
         end) l
  | JObj m =>
      if bool_decide (is_Some (m !! lit "toString")) then Throw TypeError
      else Ok (lit "[object Object]")
  end.

(** [ToNumber] *)
Definition ToNumber (v : value) : res float :=
  match v with
  | JUndefined => Ok nan
  | JNull => Ok 0%float
  | JBool true => Ok 1%float
  | JBool false => Ok 0%float
  | JNum x => Ok x
  | JStr s => Ok (StringToNumber rt s)
  | JArr _ => s ← elementToString v; Ok (StringToNumber rt s)
  | JObj m =>
      if bool_decide (is_Some (m !! lit "toString")) then Throw TypeError
      else Ok nan
  end.
End Conversions.

(** *** [Number.prototype.toFixed(4)] *)

(** The text [toFixed(4)] returns: either the digits of an integer [n] with a
    point before the last four and an optional sign, or, for a Number that is
    not finite or is at least 10^21 in magnitude, its canonical text. *)
Inductive numstr :=
| Fixed (neg : bool) (n : Z)
| Plain (x : float).

(** The integer [n] for which [n / 10^4 - m * 2^e] is closest to zero, the
    larger one of two. *)
Definition nearest4 (m : positive) (e : Z) : Z :=
  if 0 <=? e then Z.pos m * 2 ^ e * 10000
  else (2 * (Z.pos m * 10000) + 2 ^ (- e)) / 2 ^ (1 - e).

Definition toFixed4 (x : float) : numstr :=
  match Prim2SF x with
  | S754_zero _ => Fixed false 0
  | S754_finite s m e =>
      if (abs x <? 1e21)%float then Fixed s (nearest4 m e) else Plain x
  | _ => Plain x
  end.

(** The Number a text of [toFixed(4)] reads back as when it is compared with a
    Number: the binary64 value nearest to [n / 10^4]; a canonical text reads
    back as the Number it was made from. *)
Definition numstr_number (s : numstr) : float :=
  match s with
  | Fixed neg (Z.pos p) =>
      SF2Prim (SFdiv prec emax (S754_finite neg p 0) (S754_finite false 10000 0))
  | Fixed neg _ => if neg then (-0)%float else 0%float
  | Plain x => x
  end.

(** The characters of a [Fixed] text, as printed. *)
Definition fixed_text (neg : bool) (n : Z) : string :=
  let d := pretty (Z.to_N n) in
  let d := String.string_of_list_ascii (replicate (5 - String.length d) "0"%char) +:+ d in
  let k := (String.length d - 4)%nat in
  (if neg then "-" else "") +:+ substring 0 k d +:+ "." +:+ substring k 4 d.

(** *** [new Date(t)] *)

(** The integral part of a finite Number. *)
Definition Ftrunc (x : float) : option Z :=
  match Prim2SF x with
  | S754_zero _ => Some 0
  | S754_finite s m e =>
      Some (cond_Zopp s (if 0 <=? e then Z.pos m * 2 ^ e else Z.pos m / 2 ^ (- e)))
  | _ => None
  end.

(** The time value of [new Date(t)] ([TimeClip]); [None] is an invalid date. *)
Definition newDate (t : float) : option Z :=
  z ← Ftrunc t;
  if Z.abs z <=? 8640000000000000 then Some z else None.

(** ** Effects: console output, the HTTP request, the cache write *)

(** [path.join(__dirname, name)] *)
Record filepath := { dir : jsstring; base : string }.

Definition path_join (d : jsstring) (name : string) : filepath :=
  {| dir := d; base := name |}.

(** [clc.green.blink] and [clc.magenta] *)
Inductive colour := green_blink | magenta.

(** The arguments of the [console.log] that presents the rates: the time value
    of [lastUpdated], and each rate text with the colour applied to it. *)
Record summary := {
  lastUpdated : option Z;
  eurAud : colour * numstr;   (* "  1 EUR buys " + colourEurAud("AUD $ " + rateEurAud) *)
  audEur : colour * numstr;   (* "  1 AUD buys " + colourAudEur("EUR € " + rateAudEur) *)
}.

Inductive message :=
| MText (s : string)      (* a literal of the source *)
| MExn (e : exn)          (* a caught error object *)
| MValue (v : value)      (* a parsed object *)
| MSummary (s : summary)  (* the rate summary of [showResult] *)
| MKeyHelp (f : filepath). (* the request for an API key, naming its file *)

(** What a run does to its surroundings, as the calls it makes.  [WriteFile]
    is the call [fs.writeFile(file, data, callback)]: the write itself is
    asynchronous and its outcome reaches the program only through the
    callback. *)
Inductive event :=
| ConsoleLog (m : message)
| ConsoleError (m : message)
| HttpRequest (host path : jsstring)
| WriteFile (file : filepath) (data : jsstring).

(** A computation: the events it produced, and its value or the exception it
    threw. *)
Definition prog (A : Type) : Type := list event * res A.

#[export] Instance prog_ret : MRet prog := λ A a, ([], Ok a).
#[export] Instance prog_bind : MBind prog := λ A B f m,
  match m with
  | (t, Ok a) => let '(t', r) := f a in (t ++ t', r)
  | (t, Throw e) => (t, Throw e)
  end.

Definition throw {A} (e : exn) : prog A := ([], Throw e).
Definition emit (ev : event) : prog unit := ([ev], Ok tt).
Definition lift {A} (r : res A) : prog A := ([], r).

(** [try { body } catch (err) { handler }] *)
Definition try_catch {A} (body : prog A) (handler : exn → prog A) : prog A :=
  match body with
  | (t, Ok a) => (t, Ok a)
  | (t, Throw e) => let '(t', r) := handler e in (t ++ t', r)
  end.

(** The number of HTTP requests in a trace. *)
Definition is_request (ev : event) : bool :=
  match ev with
  | HttpRequest _ _ => true
  | _ => false
  end.

Definition requests (t : list event) : nat := length (filter is_request t).

(** The rate summaries printed in a trace. *)
Definition summaries (t : list event) : list summary :=
  omap (λ ev, match ev with ConsoleLog (MSummary s) => Some s | _ => None end) t.

(** ** The program *)

(** What a run finds outside the program.  The chunks of [response] are the
    texts that [httpResult += chunk] appends, one per ['data'] event: each is
    the chunk's own conversion to a string, since the response has no
    encoding set. *)
Inductive read_result :=
| ReadFail (errno : Z)
| ReadOk (contents : jsstring).

Record world := {
  dirname : jsstring;                 (* [__dirname] *)
  now : Z;                            (* [Date.now()], milliseconds *)
  cacheFile : read_result;            (* [currentRates.json] *)
  keyFile : read_result;              (* [api_key.txt] *)
  response : option (list jsstring);  (* the chunks of the response body;
                                         [None]: the request fails *)
  writeError : option exn;            (* the [err] of the [fs.writeFile] callback *)
}.

(** [fs.readFileSync(file, { encoding: 'utf8' })] *)
Definition readFileSync (r : read_result) : res jsstring :=
  match r with
  | ReadFail n => Throw (FsError n)
  | ReadOk s => Ok s
  end.

Section Program.
Context (rt : runtime).

(** [JSON.parse(text)] *)
Definition parse (text : jsstring) : res value :=
  match JSON_parse rt text with
  | Some v => Ok v
  | None => Throw SyntaxError
  end.

(** [obj.rates && obj.rates.AUD && obj.rates.EUR], as a boolean *)
Definition has_rates (obj : value) : res bool :=
  rates ← getProp obj "rates";
  if truthy rates then
    aud ← getProp rates "AUD";
    if truthy aud then
      eur ← getProp rates "EUR";
      Ok (truthy eur)
    else Ok false
  else Ok false.

Definition pick_colour (highlight : bool) : colour :=
  if highlight then green_blink else magenta.

Definition showResult (obj : value) : prog unit :=
  ok ← lift (has_rates obj);
  if negb ok then throw (Error "Rates missing from data!") else
  rates ← lift (getProp obj "rates");
  aud ← lift (getProp rates "AUD");
  eur ← lift (getProp rates "EUR");
  aud ← lift (ToNumber rt aud);
  eur ← lift (ToNumber rt eur);
  let rateEurAud := (aud / eur)%float in
  let rateAudEur := (1 / rateEurAud)%float in
  let rateEurAud := toFixed4 rateEurAud in
  let rateAudEur := toFixed4 rateAudEur in
  let colourEurAud := pick_colour (1.5 <? numstr_number rateEurAud)%float in
  let colourAudEur := pick_colour (0.7 <? numstr_number rateAudEur)%float in
  timestamp ← lift (getProp obj "timestamp");
  timestamp ← lift (ToNumber rt timestamp);
  let lastUpdated := newDate (timestamp * 1000)%float in
  emit (ConsoleLog (MSummary {|
    lastUpdated := lastUpdated;
    eurAud := (colourEurAud, rateEurAud);
    audEur := (colourAudEur, rateAudEur) |})).

Section Run.
Context (w : world).

Definition currentRatesJSON : filepath := path_join (dirname w) "currentRates.json".
Definition apiKeyFile : filepath := path_join (dirname w) "api_key.txt".

(** [dataFrom > anHourAgo] *)
Definition still_fresh (timestamp : float) : bool :=
  let dataFrom := (timestamp * 1000)%float in
  let anHourAgo := (Z2F (now w) - 1000 * 60 * 60)%float in
  (anHourAgo <? dataFrom)%float.

(** The first [try]: [true] when the program ended at [return
    showResult(obj)], [false] when it goes on to the request. *)
Definition from_cache : prog bool :=
  try_catch
    (fileContents ← lift (readFileSync (cacheFile w));
     obj ← lift (parse fileContents);
     timestamp ← lift (getProp obj "timestamp");
     timestamp ← lift (ToNumber rt timestamp);
     if still_fresh timestamp then showResult obj;; mret true
     else mret false)
    (λ err,
       (if bool_decide (errno_of err = Some 34)
        then emit (ConsoleLog (MText "Cached data file missing..."))
        else emit (ConsoleLog (MExn err)));;
       mret false).

(** The second [try]: the API key, or [None] after the request for one was
    printed. *)
Definition load_key : prog (option jsstring) :=
  try_catch
    (contents ← lift (readFileSync (keyFile w));
     let apiKey := trim contents in
     if negb (truthy_string apiKey) || negb (length apiKey =? 32)%nat
     then throw (Error "")
     else mret (Some apiKey))
    (λ e, emit (ConsoleError (MKeyHelp apiKeyFile));; mret None).

(** The ['end'] handler of the response. *)
Definition on_end (httpResult : jsstring) : prog unit :=
  emit (WriteFile currentRatesJSON httpResult);;
  obj ← lift (parse httpResult);
  err ← lift (getProp obj "error");
  if truthy err then emit (ConsoleError (MValue obj))
  else showResult obj.

(** The callback of [fs.writeFile], run once the handler has returned. *)
Definition write_done : prog unit :=
  match writeError w with
  | Some err => emit (ConsoleError (MExn err))
  | None => mret tt
  end.

(** [http.request(httpOptions, httpCallback).end()] and what follows it.  The
    call is taken to accept its options and to create the request.  A Node
    that validates the request path throws a [TypeError] at this call, before
    any request, when the key has white space inside or a code unit above
    U+00FF; that outcome is not part of the model. *)
Definition fetch (apiKey : jsstring) : prog unit :=
  emit (HttpRequest (lit "openexchangerates.org")
                    (lit "/api/latest.json?app_id=" ++ apiKey));;
  match response w with
  | None => throw RequestError
  | Some chunks =>
      emit (ConsoleLog (MText "Fetching new currency exchange data:"));;
      let httpResult := foldl (λ acc chunk, acc ++ chunk) [] chunks in
      on_end httpResult;;
      write_done
  end.

(** Everything below the first [try]. *)
Definition fetch_stage : prog unit :=
  key ← load_key;
  match key with
  | None => mret tt
  | Some apiKey => fetch apiKey
  end.

Definition run : prog unit :=
  served ← from_cache;
  if served : bool then mret tt else fetch_stage.
End Run.
End Program.

(** ** Sample data *)

(** A snapshot [{ timestamp: t, rates: { AUD: aud, EUR: eur } }]. *)
Definition snapshot (t aud eur : float) : value :=
  JObj (<[lit "timestamp" := JNum t]>
        (<[lit "rates" := JObj (<[lit "AUD" := JNum aud]> (<[lit "EUR" := JNum eur]> ∅))]> ∅)).

(** A runtime for closed examples: [JSON.parse] reads each listed text as the
    value listed with it and rejects every other text.  The examples hold
    Numbers only, so their runs convert no string. *)
Definition reading (docs : list (jsstring * value)) : runtime := {|
  JSON_parse := λ text,
    d ← list_find (λ d, bool_decide (fst d = text)) docs; Some (snd (snd d));
  StringToNumber := λ _, nan;
  NumberToString := λ _, [];
|}.

(** A well-formed API key. *)
Definition key32 : jsstring := lit "0123456789abcdef0123456789abcdef".

(** A property name or string of a JSON text, in its quotation marks. *)
Definition quoted (s : string) : jsstring := [34%N] ++ lit s ++ [34%N].

(** The text [{"timestamp":1700000000,"rates":{"AUD":1.5,"EUR":1}}]. *)
Definition rates_text : jsstring :=
  lit "{" ++ quoted "timestamp" ++ lit ":1700000000," ++ quoted "rates" ++ lit ":{"
    ++ quoted "AUD" ++ lit ":1.5," ++ quoted "EUR" ++ lit ":1}}".

(** [obj.rates.code] as an own property of an object [obj.rates]; [None] when
    the snapshot has no such member. *)
Definition rate_of (obj : value) (code : string) : option value :=
  match obj with
  | JObj m =>
      match m !! lit "rates" with
      | Some (JObj r) => r !! lit code
      | _ => None
      end
  | _ => None
  end.

(** The body the ['end'] handler sees: the texts of the chunks appended in
    order. *)
Definition received (chunks : list jsstring) : jsstring :=
  foldl (λ acc chunk, acc ++ chunk) [] chunks.

(** The same surroundings with another outcome of the cache write. *)
Definition with_write (w : world) (err : option exn) : world :=
  {| dirname := dirname w; now := now w; cacheFile := cacheFile w;
     keyFile := keyFile w; response := response w; writeError := err |}.

(** [(AUD / EUR).toFixed(4)], the rounded cross rate of two rates. *)
Definition crossRate (r1 r2 : float) : numstr := toFixed4 (r1 / r2).

(** The text [{"timestamp":1700000000}] and its reading. *)
Definition bare_text : jsstring :=
  lit "{" ++ quoted "timestamp" ++ lit ":1700000000}".

Definition bare : gmap (list N) value :=
  <[lit "timestamp" := JNum (Z2F 1700000000)]> ∅.

(** The text [{"error":false,"timestamp":1700000000,"rates":{"AUD":1.5,"EUR":1}}]
    and its reading. *)
Definition flagged_text : jsstring :=
  lit "{" ++ quoted "error" ++ lit ":false," ++ quoted "timestamp"
    ++ lit ":1700000000," ++ quoted "rates" ++ lit ":{"
    ++ quoted "AUD" ++ lit ":1.5," ++ quoted "EUR" ++ lit ":1}}".

Definition flagged : gmap (list N) value :=
  <[lit "error" := JBool false]>
    (<[lit "timestamp" := JNum 1700000000]>
       (<[lit "rates" := JObj (<[lit "AUD" := JNum 1.5]> (<[lit "EUR" := JNum 1]> ∅))]> ∅)).

(** The text [{"error":true,"message":"invalid_app_id"}] and its reading. *)
Definition refusal_text : jsstring :=
  lit "{" ++ quoted "error" ++ lit ":true," ++ quoted "message" ++ lit ":"
    ++ quoted "invalid_app_id" ++ lit "}".

Definition refusal : gmap (list N) value :=
  <[lit "error" := JBool true]> (<[lit "message" := JStr (lit "invalid_app_id")]> ∅).

Definition sample_runtime : runtime :=
  reading [(rates_text, snapshot (Z2F 1700000000) 1.5 1);
           (bare_text, JObj bare);
           (flagged_text, JObj flagged);
           (refusal_text, JObj refusal)].

(** A run at time [t] (milliseconds) that finds [cache] and [key] on disk
    and receives [body], the cache write succeeding. *)
Definition sample_world (t : Z) (cache key : read_result) (body : jsstring) : world :=
  {| dirname := lit "/opt/getRates"; now := t; cacheFile := cache;
     keyFile := key; response := Some [body]; writeError := None |}.

(** The binary64 datum of a positive integer [z] below 2^53, with sign [s]:
    its 53-bit mantissa and exponent. *)
Definition nform (s : bool) (z : Z) : spec_float :=
  S754_finite s (Z.to_pos (z * 2 ^ (52 - Z.log2 z))) (Z.log2 z - 52).

(** The same surroundings with the response arriving in other chunks. *)
Definition with_response (w : world) (chunks : list jsstring) : world :=
  {| dirname := dirname w; now := now w; cacheFile := cacheFile w;
     keyFile := keyFile w; response := Some chunks; writeError := writeError w |}.

(** The request the program sends for an API key. *)
Definition request_for (apiKey : jsstring) : event :=
  HttpRequest (lit "openexchangerates.org") (lit "/api/latest.json?app_id=" ++ apiKey).

(** [Array.prototype.join] with separator [","], as [elementToString] does
    it for an array. *)
Definition joinElements (rt : runtime) : list value → res jsstring :=
  fix join (l : list value) : res jsstring :=
    match l with
    | [] => Ok []
    | [v] => elementToString rt v
    | v :: l' =>
        match elementToString rt v, join l' with
        | Ok s, Ok s' => Ok (s ++ lit "," ++ s')
        | Throw e, _ => Throw e
        | _, Throw e => Throw e
        end
    end.

(** The text [{"rates":{"AUD":1.5,"EUR":1}}], its reading, and a runtime that
    knows it. *)
Definition undated_text : jsstring :=
  lit "{" ++ quoted "rates" ++ lit ":{"
    ++ quoted "AUD" ++ lit ":1.5," ++ quoted "EUR" ++ lit ":1}}".

Definition undated : gmap (list N) value :=
  <[lit "rates" := JObj (<[lit "AUD" := JNum 1.5]> (<[lit "EUR" := JNum 1]> ∅))]> ∅.

Definition undated_runtime : runtime := reading [(undated_text, JObj undated)].

(** * Properties *)

(** ** Binary64 arithmetic on integers

    Integers below 2^53 in magnitude are binary64 values, and their products,
    differences and comparisons are exact as long as the results stay below
    2^53.  These are facts about [SpecFloat]'s rounding, which specifies the
    primitive operations. *)

Lemma Zdigits2_log2 z : 0 < z → Zdigits2 z = Z.log2 z + 1.
Proof.
  destruct z as [|p|p]; try lia. intros _. simpl.
  induction p; simpl; try lia.
  - destruct p; simpl in *; lia.
  - destruct p; simpl in *; lia.
Qed.

Lemma digits2_log2 p : Z.pos (digits2_pos p) = Z.log2 (Z.pos p) + 1.
Proof. apply (Zdigits2_log2 (Z.pos p)). lia. Qed.

Lemma iter_pos_iter {A} (f : A → A) p x : SpecFloat.iter_pos f p x = Pos.iter f x p.
Proof.
  revert x. induction p; intros x; simpl.
  - rewrite !IHp. rewrite <- !Pos.iter_swap. reflexivity.
  - rewrite !IHp. reflexivity.
  - reflexivity.
Qed.

Lemma shr_1_even k : 0 <= k →
  shr_1 {| shr_m := 2 * k; shr_r := false; shr_s := false |}
  = {| shr_m := k; shr_r := false; shr_s := false |}.
Proof. destruct k; try lia; reflexivity. Qed.

Lemma iter_shr_exact p k : 0 <= k →
  SpecFloat.iter_pos shr_1 p {| shr_m := k * 2 ^ Z.pos p; shr_r := false; shr_s := false |}
  = {| shr_m := k; shr_r := false; shr_s := false |}.
Proof.
  intros Hk. rewrite iter_pos_iter. revert k Hk.
  induction p using Pos.peano_ind; intros k Hk.
  - simpl. replace (k * 2 ^ 1) with (2 * k) by lia. apply shr_1_even; lia.
  - rewrite Pos.iter_succ.
    replace (k * 2 ^ Z.pos (Pos.succ p)) with ((2 * k) * 2 ^ Z.pos p).
    + rewrite IHp by lia. apply shr_1_even; lia.
    + rewrite Pos2Z.inj_succ, Z.pow_succ_r by lia. lia.
Qed.

Lemma shr_exact k e n : 0 <= k → 0 <= n →
  shr {| shr_m := k * 2 ^ n; shr_r := false; shr_s := false |} e n
  = ({| shr_m := k; shr_r := false; shr_s := false |}, e + n).
Proof.
  intros Hk Hn. destruct n as [|p|p]; try lia; simpl.
  - rewrite Z.mul_1_r, Z.add_0_r. reflexivity.
  - change (Z.pow_pos 2 p) with (2 ^ Z.pos p). rewrite iter_shr_exact by lia. reflexivity.
Qed.

Lemma binary_round_aux_exact s k n e :
  Z.log2 (Z.pos k) = 52 → 0 <= n → -1074 <= e + n <= 971 →
  binary_round_aux prec emax s (Z.pos k * 2 ^ n) e loc_Exact = S754_finite s k (e + n).
Proof.
  intros Hk Hn He. unfold binary_round_aux, shr_fexp.
  assert (Hpos : 0 < Z.pos k * 2 ^ n) by (apply Z.mul_pos_pos; [lia | apply Z.pow_pos_nonneg; lia]).
  rewrite (Zdigits2_log2 _ Hpos), Z.log2_mul_pow2, Hk by lia.
  replace (fexp prec emax (n + 52 + 1 + e) - e) with n
    by (unfold fexp, emin, prec, emax; lia).
  simpl shr_record_of_loc. rewrite shr_exact by lia.
  simpl shr_m. simpl loc_of_shr_record. simpl round_nearest_even.
  rewrite (Zdigits2_log2 (Z.pos k)), Hk by lia.
  replace (fexp prec emax (52 + 1 + (e + n)) - (e + n)) with 0
    by (unfold fexp, emin, prec, emax; lia).
  simpl. destruct (Z.leb_spec (e + n) (emax - prec)); [reflexivity|].
  unfold emax, prec in *; lia.
Qed.

Lemma log2_lt_53 z : 0 < z < 2 ^ 53 → 0 <= Z.log2 z <= 52.
Proof.
  intros [H0 H1]. split; [apply Z.log2_nonneg|].
  assert (Z.log2 z < 53); [|lia]. apply Z.log2_lt_pow2; lia.
Qed.

Lemma iter_xO_shift m d : Z.pos (Pos.iter xO m d) = Z.pos m * 2 ^ Z.pos d.
Proof.
  induction d using Pos.peano_ind.
  - simpl. lia.
  - rewrite Pos.iter_succ, Pos2Z.inj_succ, Z.pow_succ_r by lia.
    rewrite Pos2Z.inj_xO, IHd. lia.
Qed.

Lemma binary_round_aux_exactZ s K n e :
  0 < K → Z.log2 K = 52 → 0 <= n → -1074 <= e + n <= 971 →
  binary_round_aux prec emax s (K * 2 ^ n) e loc_Exact = S754_finite s (Z.to_pos K) (e + n).
Proof.
  intros HK Hl Hn He. destruct K as [|k|k]; try lia.
  apply binary_round_aux_exact; auto.
Qed.

Lemma binary_round_int s mx z k :
  0 < z < 2 ^ 53 → 0 <= k <= 1000 → Z.pos mx = z * 2 ^ k →
  binary_round prec emax s mx (- k) = nform s z.
Proof.
  intros Hz Hk Hmx. pose proof (log2_lt_53 z Hz) as Hl.
  unfold binary_round.
  rewrite digits2_log2, Hmx, Z.log2_mul_pow2 by lia.
  replace (fexp prec emax (k + Z.log2 z + 1 + - k)) with (Z.log2 z - 52)
    by (unfold fexp, emin, prec, emax; lia).
  unfold shl_align.
  assert (HK : 0 < z * 2 ^ (52 - Z.log2 z))
    by (apply Z.mul_pos_pos; [lia | apply Z.pow_pos_nonneg; lia]).
  assert (HlK : Z.log2 (z * 2 ^ (52 - Z.log2 z)) = 52)
    by (rewrite Z.log2_mul_pow2 by lia; lia).
  destruct (Z.log2 z - 52 - - k) as [|d|d] eqn:Hd.
  - replace (Z.pos mx) with (z * 2 ^ (52 - Z.log2 z) * 2 ^ 0)
      by (rewrite Hmx; replace (52 - Z.log2 z) with k by lia; simpl; lia).
    rewrite binary_round_aux_exactZ by lia.
    unfold nform. f_equal. lia.
  - replace (Z.pos mx) with (z * 2 ^ (52 - Z.log2 z) * 2 ^ (Z.pos d)).
    + rewrite binary_round_aux_exactZ by lia. unfold nform. f_equal. lia.
    + rewrite Hmx, <- Z.mul_assoc, <- Z.pow_add_r by lia. do 2 f_equal. lia.
  - replace (Z.pos (Pos.iter xO mx d)) with (z * 2 ^ (52 - Z.log2 z) * 2 ^ 0).
    + rewrite binary_round_aux_exactZ by lia. unfold nform. f_equal. lia.
    + rewrite iter_xO_shift, Hmx, Z.pow_0_r, Z.mul_1_r, <- Z.mul_assoc, <- Z.pow_add_r by lia.
      do 2 f_equal. lia.
Qed.

Lemma nform_valid s z : 0 < z < 2 ^ 53 → valid_binary (nform s z) = true.
Proof.
  intros Hz. pose proof (log2_lt_53 z Hz) as Hl.
  unfold nform, valid_binary, bounded, canonical_mantissa.
  assert (HK : 0 < z * 2 ^ (52 - Z.log2 z))
    by (apply Z.mul_pos_pos; [lia | apply Z.pow_pos_nonneg; lia]).
  rewrite digits2_log2, Z2Pos.id, Z.log2_mul_pow2 by lia.
  apply andb_true_intro. split.
  - apply Z.eqb_eq. unfold fexp, emin, prec, emax. lia.
  - apply Z.leb_le. unfold prec, emax. lia.
Qed.

Lemma Prim2SF_Z2F z : 0 < z < 2 ^ 53 → Prim2SF (Z2F z) = nform false z.
Proof.
  intros Hz. unfold Z2F.
  assert (binary_normalize prec emax z 0 false = nform false z) as ->.
  { destruct z as [|p|p]; try lia. simpl binary_normalize.
    apply (binary_round_int false p (Z.pos p) 0); simpl; lia. }
  apply Prim2SF_SF2Prim, nform_valid, Hz.
Qed.

Lemma nform_mantissa z : 0 < z < 2 ^ 53 →
  Z.pos (Z.to_pos (z * 2 ^ (52 - Z.log2 z))) = z * 2 ^ (52 - Z.log2 z).
Proof.
  intros Hz. pose proof (log2_lt_53 z Hz). apply Z2Pos.id.
  apply Z.mul_pos_pos; [lia | apply Z.pow_pos_nonneg; lia].
Qed.

Lemma SFmul_int a b :
  0 < a → 0 < b → a * b < 2 ^ 53 →
  SFmul prec emax (nform false a) (nform false b) = nform false (a * b).
Proof.
  intros Ha Hb Hab.
  assert (Ha' : 0 < a < 2 ^ 53) by nia.
  assert (Hb' : 0 < b < 2 ^ 53) by nia.
  assert (Hab' : 0 < a * b < 2 ^ 53) by nia.
  pose proof (log2_lt_53 _ Ha'). pose proof (log2_lt_53 _ Hb').
  pose proof (log2_lt_53 _ Hab').
  pose proof (Z.log2_mul_below a b Ha Hb) as Hlow.
  unfold nform at 1 2. simpl SFmul.
  rewrite Pos2Z.inj_mul, !nform_mantissa by lia.
  replace (a * 2 ^ (52 - Z.log2 a) * (b * 2 ^ (52 - Z.log2 b)))
    with (a * b * 2 ^ (52 - Z.log2 (a * b)) * 2 ^ (52 + Z.log2 (a * b) - Z.log2 a - Z.log2 b)).
  - assert (HK : 0 < a * b * 2 ^ (52 - Z.log2 (a * b)))
      by (apply Z.mul_pos_pos; [lia | apply Z.pow_pos_nonneg; lia]).
    assert (HlK : Z.log2 (a * b * 2 ^ (52 - Z.log2 (a * b))) = 52)
      by (rewrite Z.log2_mul_pow2 by lia; lia).
    rewrite binary_round_aux_exactZ by lia.
    unfold nform. f_equal. lia.
  - rewrite <- !Z.mul_assoc. rewrite <- Z.pow_add_r by lia.
    replace (52 - Z.log2 (a * b) + (52 + Z.log2 (a * b) - Z.log2 a - Z.log2 b))
      with ((52 - Z.log2 a) + (52 - Z.log2 b)) by lia.
    rewrite Z.pow_add_r by lia. lia.
Qed.

Lemma shl_align_int z e' :
  0 < z < 2 ^ 53 → e' <= Z.log2 z - 52 →
  Z.pos (fst (shl_align (Z.to_pos (z * 2 ^ (52 - Z.log2 z))) (Z.log2 z - 52) e'))
  = z * 2 ^ (- e').
Proof.
  intros Hz He. pose proof (log2_lt_53 _ Hz).
  unfold shl_align. destruct (e' - (Z.log2 z - 52)) as [|d|d] eqn:Hd; try lia; simpl fst.
  - rewrite nform_mantissa by lia. do 2 f_equal. lia.
  - rewrite iter_xO_shift, nform_mantissa by lia.
    rewrite <- Z.mul_assoc, <- Z.pow_add_r by lia. do 2 f_equal. lia.
Qed.

Lemma binary_normalize_int z k :
  0 < z < 2 ^ 53 → 0 <= k <= 1000 →
  binary_normalize prec emax (z * 2 ^ k) (- k) false = nform false z
  ∧ binary_normalize prec emax (- (z * 2 ^ k)) (- k) false = nform true z.
Proof.
  intros Hz Hk.
  assert (Hp : 0 < z * 2 ^ k) by (apply Z.mul_pos_pos; [lia | apply Z.pow_pos_nonneg; lia]).
  destruct (z * 2 ^ k) as [|p|p] eqn:Hzk; try lia.
  split; simpl; apply binary_round_int; auto.
Qed.

(** [a - b] for positive integers: exact, with the sign of the difference. *)
Lemma SFsub_int a b :
  0 < a < 2 ^ 53 → 0 < b < 2 ^ 53 →
  SFsub prec emax (nform false a) (nform false b) =
    match Z.compare a b with
    | Gt => nform false (a - b)
    | Lt => nform true (b - a)
    | Eq => S754_zero false
    end.
Proof.
  intros Ha Hb.
  pose proof (log2_lt_53 _ Ha). pose proof (log2_lt_53 _ Hb).
  unfold nform at 1 2. simpl SFsub. unfold cond_Zopp.
  set (ez := Z.min (Z.log2 a - 52) (Z.log2 b - 52)).
  rewrite !shl_align_int by (unfold ez; lia).
  assert (Hez : 0 <= - ez <= 52) by (unfold ez; lia).
  replace ez with (- (- ez)) by lia. generalize dependent (- ez). clear ez.
  intros k Hk. rewrite Z.opp_involutive.
  rewrite <- Z.mul_sub_distr_r.
  destruct (Z.compare_spec a b) as [Heq | Hlt | Hgt].
  - subst. rewrite Z.sub_diag. reflexivity.
  - replace ((a - b) * 2 ^ k) with (- ((b - a) * 2 ^ k)) by lia.
    apply binary_normalize_int; lia.
  - apply binary_normalize_int; lia.
Qed.

Lemma SFltb_int a b :
  0 < a < 2 ^ 53 → 0 < b < 2 ^ 53 →
  SFltb (nform false a) (nform false b) = (a <? b).
Proof.
  intros Ha Hb.
  pose proof (log2_lt_53 _ Ha). pose proof (log2_lt_53 _ Hb).
  pose proof (Z.log2_spec a ltac:(lia)) as [La Ua].
  pose proof (Z.log2_spec b ltac:(lia)) as [Lb Ub].
  unfold SFltb, nform, SFcompare.
  destruct (Z.compare_spec (Z.log2 a - 52) (Z.log2 b - 52)) as [Heq | Hlt | Hgt].
  - change (Pos.compare_cont Eq ?p ?q) with (Pos.compare p q).
    rewrite Pos2Z.inj_compare, !nform_mantissa by lia.
    replace (Z.log2 a) with (Z.log2 b) by lia.
    assert (Hp : 0 < 2 ^ (52 - Z.log2 b)) by (apply Z.pow_pos_nonneg; lia).
    destruct (Z.compare_spec (a * 2 ^ (52 - Z.log2 b)) (b * 2 ^ (52 - Z.log2 b)));
      symmetry; [apply Z.ltb_ge | apply Z.ltb_lt | apply Z.ltb_ge]; nia.
  - symmetry. apply Z.ltb_lt.
    assert (2 ^ Z.succ (Z.log2 a) <= 2 ^ Z.log2 b) by (apply Z.pow_le_mono_r; lia). lia.
  - symmetry. apply Z.ltb_ge.
    assert (2 ^ Z.succ (Z.log2 b) <= 2 ^ Z.log2 a) by (apply Z.pow_le_mono_r; lia). lia.
Qed.

Lemma still_fresh_age w t :
  0 < t → 1000 * t < 2 ^ 53 → 0 < now w < 2 ^ 53 →
  still_fresh w (Z2F t) = (now w - 1000 * t <? 3600000).
Proof.
  intros Ht Ht' Hnow. unfold still_fresh.
  change (1000 * 60 * 60)%float with 3600000%float.
  rewrite ltb_spec, sub_spec, mul_spec, !Prim2SF_Z2F by lia.
  change (Prim2SF 3600000%float) with (nform false 3600000).
  change (Prim2SF 1000%float) with (nform false 1000).
  unfold SF64sub, SF64mul.
  rewrite SFmul_int, SFsub_int by lia.
  destruct (Z.compare_spec (now w) 3600000) as [Heq | Hlt | Hgt].
  - rewrite Heq. symmetry. apply Z.ltb_lt. lia.
  - transitivity true; [reflexivity|]. symmetry. apply Z.ltb_lt. lia.
  - rewrite SFltb_int by lia.
    destruct (Z.ltb_spec (now w - 3600000) (t * 1000));
      symmetry; [apply Z.ltb_lt | apply Z.ltb_ge]; lia.
Qed.

(** ** The reciprocal of a cross rate between 0.5 and 2 *)

(** [nearest4] in units of 2^-53 *)
Lemma nearest4_bounds m e :
  -53 <= e <= -51 →
  let Q := Z.pos m * 2 ^ (e + 53) in
  - 2 ^ 52 <= 2 ^ 53 * nearest4 m e - 10000 * Q <= 2 ^ 52.
Proof.
  intros He Q. unfold nearest4.
  destruct (Z.leb_spec 0 e) as [?|_]; [lia|].
  assert (Hd : 0 < 2 ^ (1 - e)) by (apply Z.pow_pos_nonneg; lia).
  pose proof (Z.div_mod (2 * (Z.pos m * 10000) + 2 ^ (- e)) (2 ^ (1 - e)) ltac:(lia)) as Hdm.
  pose proof (Z.mod_pos_bound (2 * (Z.pos m * 10000) + 2 ^ (- e)) (2 ^ (1 - e)) Hd) as Hr.
  set (n := (2 * (Z.pos m * 10000) + 2 ^ (- e)) / 2 ^ (1 - e)) in *.
  set (r := (2 * (Z.pos m * 10000) + 2 ^ (- e)) mod 2 ^ (1 - e)) in *.
  unfold Q. clearbody n r.
  assert (e = -53 ∨ e = -52 ∨ e = -51) as [-> | [-> | ->]] by lia;
    simpl in *; lia.
Qed.

Lemma loc_record_roundtrip m l :
  shr_m (shr_record_of_loc m l) = m ∧
  loc_of_shr_record (shr_record_of_loc m l) = l.
Proof. destruct l as [|[]]; split; reflexivity. Qed.

Lemma round_nearest_even_cases m l :
  round_nearest_even m l = m ∨ round_nearest_even m l = m + 1.
Proof. destruct l as [|[]]; simpl; auto. destruct (Z.even m); auto. Qed.

(** [1 / x] for a binary64 [x = m * 2^e] with 2^52 < m < 2^53 and e = -53 or
    -52: the quotient is [V * 2^(-105 - e)] with [V] one of the two integers
    around [2^105 / m]. *)
Lemma SFdiv_one m e :
  2 ^ 52 < Z.pos m < 2 ^ 53 → e = -53 ∨ e = -52 →
  ∃ mr er, SFdiv prec emax (S754_finite false 4503599627370496 (-52)) (S754_finite false m e)
           = S754_finite false mr er
    ∧ (er = -105 - e ∨ er = -104 - e)
    ∧ - Z.pos m <= Z.pos mr * 2 ^ (er + 105 + e) * Z.pos m - 2 ^ 105 <= Z.pos m.
Proof.
  intros Hm He.
  assert (Hlog : Z.log2 (Z.pos m) = 52).
  { apply Z.log2_unique; [lia|]. change (2 ^ Z.succ 52) with (2 ^ 53). lia. }
  unfold SFdiv, SFdiv_core_binary.
  change (Zdigits2 (Z.pos 4503599627370496)) with 53.
  rewrite (Zdigits2_log2 (Z.pos m)), Hlog by lia.
  set (e' := Z.min (fexp prec emax (53 + -52 - (52 + 1 + e))) (-52 - e)).
  assert (He' : e' = -105 - e) by (destruct He; subst; reflexivity).
  replace (-52 - e - e') with 53 by lia.
  change (Z.shiftl (Z.pos 4503599627370496) 53) with (2 ^ 105).
  pose proof (Z_div_mod (2 ^ 105) (Z.pos m) ltac:(lia)) as Hdiv.
  destruct (Z.div_eucl (2 ^ 105) (Z.pos m)) as [q r]. destruct Hdiv as [Hqr Hr].
  assert (Hq : 2 ^ 52 <= q < 2 ^ 53) by nia.
  unfold binary_round_aux, shr_fexp.
  assert (Hlq : Z.log2 q = 52).
  { apply Z.log2_unique; [lia|]. change (2 ^ Z.succ 52) with (2 ^ 53). lia. }
  rewrite (Zdigits2_log2 q), Hlq by lia.
  replace (fexp prec emax (52 + 1 + e') - e') with 0
    by (destruct He; subst; reflexivity).
  simpl shr.
  destruct (loc_record_roundtrip q (new_location (Z.pos m) r)) as [-> ->].
  destruct (round_nearest_even_cases q (new_location (Z.pos m) r)) as [-> | ->].
  - rewrite (Zdigits2_log2 q), Hlq by lia.
    replace (fexp prec emax (52 + 1 + e') - e') with 0
      by (destruct He; subst; reflexivity).
    simpl. destruct q as [|mq|mq]; try lia.
    replace (e' <=? emax - prec) with true by (destruct He; subst; reflexivity).
    exists mq, e'. split; [reflexivity|]. split; [lia|].
    replace (e' + 105 + e) with 0 by lia. lia.
  - destruct (Z.eq_dec (q + 1) (2 ^ 53)) as [Hov | Hnov].
    + rewrite Hov. change (Zdigits2 (2 ^ 53)) with 54.
      replace (fexp prec emax (54 + e') - e') with 1
        by (destruct He; subst; reflexivity).
      simpl.
      replace (e' + 1 <=? emax - prec) with true by (destruct He; subst; reflexivity).
      exists 4503599627370496%positive, (e' + 1). split; [reflexivity|]. split; [lia|].
      replace (e' + 1 + 105 + e) with 1 by lia. lia.
    + assert (Hlq1 : Z.log2 (q + 1) = 52).
      { apply Z.log2_unique; [lia|]. change (2 ^ Z.succ 52) with (2 ^ 53). lia. }
      rewrite (Zdigits2_log2 (q + 1)), Hlq1 by lia.
      replace (fexp prec emax (52 + 1 + e') - e') with 0
        by (destruct He; subst; reflexivity).
      simpl. destruct (q + 1) as [|mq|mq] eqn:Hq1; try lia.
      replace (e' <=? emax - prec) with true by (destruct He; subst; reflexivity).
      exists mq, e'. split; [reflexivity|]. split; [lia|].
      replace (e' + 105 + e) with 0 by lia. lia.
Qed.

Lemma mul_abs_bound x b c :
  0 <= x → - c <= b <= c → - (c * x) <= x * b <= c * x.
Proof. intros Hx Hb. nia. Qed.

Lemma mul_abs_bound2 a b c :
  - c <= a <= c → - c <= b <= c → - (c * c) <= a * b <= c * c.
Proof. intros Ha Hb. nia. Qed.

(** Two 4-decimal roundings [n1], [n2] of reciprocal quantities [Q], [Y]
    (scaled by 2^53) multiply to 10^8 up to 12500. *)
Lemma product_bound Q Y n1 n2 :
  2 ^ 52 <= Q <= 2 ^ 54 → 0 < Y →
  - 2 ^ 54 <= Q * Y - 2 ^ 106 <= 2 ^ 54 →
  - 2 ^ 52 <= 2 ^ 53 * n1 - 10000 * Q <= 2 ^ 52 →
  - 2 ^ 52 <= 2 ^ 53 * n2 - 10000 * Y <= 2 ^ 52 →
  - 12500 <= n1 * n2 - 100000000 <= 12500.
Proof.
  intros HQ HY HE HA HB.
  set (A := 2 ^ 53 * n1 - 10000 * Q) in *.
  set (B := 2 ^ 53 * n2 - 10000 * Y) in *.
  assert (Hid : 2 ^ 106 * (n1 * n2 - 100000000)
                = 100000000 * (Q * Y - 2 ^ 106) + 10000 * (Q * B + Y * A) + A * B).
  { unfold A, B. change (2 ^ 106) with (2 ^ 53 * 2 ^ 53). ring. }
  assert (HQY : Q + Y <= 5 * 2 ^ 52 + 4).
  { assert (HQQ : Q * Q + 2 ^ 106 <= 5 * 2 ^ 52 * Q).
    { assert (0 <= (Q - 2 ^ 52) * (2 ^ 54 - Q)) by (apply Z.mul_nonneg_nonneg; lia).
      replace ((Q - 2 ^ 52) * (2 ^ 54 - Q))
        with (5 * 2 ^ 52 * Q - Q * Q - 2 ^ 106) in H
        by (change (2 ^ 106) with (2 ^ 52 * 2 ^ 54); change (2 ^ 54) with (4 * 2 ^ 52); ring).
      lia. }
    assert (Hm : Q * (Q + Y) <= Q * (5 * 2 ^ 52 + 4)).
    { replace (Q * (Q + Y)) with (Q * Q + Q * Y) by ring.
      replace (Q * (5 * 2 ^ 52 + 4)) with (5 * 2 ^ 52 * Q + 4 * Q) by ring. lia. }
    apply Z.mul_le_mono_pos_l in Hm; lia. }
  pose proof (mul_abs_bound2 A B (2 ^ 52) HA HB) as HAB.
  pose proof (mul_abs_bound Q B (2 ^ 52) ltac:(lia) HB) as HQB.
  pose proof (mul_abs_bound Y A (2 ^ 52) ltac:(lia) HA) as HYA.
  clearbody A B.
  generalize dependent (Q * B). generalize dependent (Y * A).
  generalize dependent (A * B). generalize dependent (Q * Y).
  intros QY HE AB HAB YA HYA QB HQB Hid. lia.
Qed.

Lemma Prim2SF_half : Prim2SF 0.5 = S754_finite false 4503599627370496 (-53).
Proof. reflexivity. Qed.
Lemma Prim2SF_one : Prim2SF 1 = S754_finite false 4503599627370496 (-52).
Proof. reflexivity. Qed.
Lemma Prim2SF_two : Prim2SF 2 = S754_finite false 4503599627370496 (-51).
Proof. reflexivity. Qed.
Lemma Prim2SF_1e21 : Prim2SF 1e21 = S754_finite false 7629394531250000 17.
Proof. reflexivity. Qed.

Lemma compare_cont_Z p q : Pos.compare_cont Eq p q = (Z.pos p ?= Z.pos q).
Proof. reflexivity. Qed.

Lemma between_half_and_two q :
  (0.5 <=? q)%float = true → (q <=? 2)%float = true →
  ∃ m e, Prim2SF q = S754_finite false m e ∧ 2 ^ 52 <= Z.pos m < 2 ^ 53
         ∧ (e = -53 ∨ e = -52 ∨ (e = -51 ∧ m = 4503599627370496%positive)).
Proof.
  rewrite !leb_spec. intros Hlo Hhi.
  pose proof (Prim2SF_valid q) as Hv.
  rewrite Prim2SF_half in Hlo. rewrite Prim2SF_two in Hhi.
  destruct (Prim2SF q) as [s|s| |s m e]; try discriminate.
  - destruct s; discriminate.
  - destruct s; [discriminate|].
    assert (He : -53 <= e <= -51 ∧ (e = -51 → Z.pos m <= 2 ^ 52)).
    { clear Hv. unfold SFleb, SFcompare in Hlo, Hhi.
      destruct (Z.compare_spec (-53) e) as [E1|E1|E1]; try discriminate Hlo;
        clear Hlo;
        (destruct (Z.compare_spec e (-51)) as [E2|E2|E2]; try discriminate Hhi).
      - clear Hhi. exfalso. lia.
      - clear Hhi. split; [lia|]. intros E3. exfalso. lia.
      - split; [lia|]. intros _.
        rewrite compare_cont_Z in Hhi.
        destruct (Z.compare_spec (Z.pos m) (Z.pos 4503599627370496)) as [E4|E4|E4];
          try discriminate Hhi; clear Hhi.
        + rewrite E4. discriminate.
        + apply Z.lt_le_incl. exact E4.
      - clear Hhi. split; [lia|]. intros E3. exfalso. lia. }
    clear Hlo Hhi. destruct He as [He Hm].
    unfold valid_binary, bounded, canonical_mantissa in Hv.
    apply andb_prop in Hv as [Hc _]. apply Z.eqb_eq in Hc.
    rewrite digits2_log2 in Hc.
    assert (Hl : Z.log2 (Z.pos m) = 52) by (unfold fexp, emin, prec, emax in Hc; lia).
    pose proof (Z.log2_spec (Z.pos m) ltac:(lia)) as Hs. rewrite Hl in Hs.
    change (2 ^ Z.succ 52) with (2 ^ 53) in Hs.
    exists m, e. split; [reflexivity|]. split; [lia|].
    destruct (Z.eq_dec e (-51)) as [E|E]; [|lia].
    right; right. split; [exact E|]. specialize (Hm E).
    assert (Z.pos m = Z.pos 4503599627370496) as Em by (change (Z.pos 4503599627370496) with (2 ^ 52); lia).
    congruence.
Qed.

Lemma toFixed4_small x (s : bool) m e :
  Prim2SF x = S754_finite s m e → e < 17 →
  toFixed4 x = Fixed s (nearest4 m e).
Proof.
  intros Hx He. unfold toFixed4. rewrite Hx.
  rewrite ltb_spec, abs_spec, Hx. simpl SFabs.
  rewrite Prim2SF_1e21.
  unfold SFltb, SFcompare.
  destruct (Z.compare_spec e 17); try lia. reflexivity.
Qed.

Lemma inverse_bound q :
  (0.5 <=? q)%float = true → (q <=? 2)%float = true →
  ∃ n1 n2, toFixed4 q = Fixed false n1 ∧ toFixed4 (1 / q) = Fixed false n2
           ∧ - 12500 <= n1 * n2 - 100000000 <= 12500.
Proof.
  intros Hlo Hhi.
  destruct (between_half_and_two q Hlo Hhi) as (m & e & Hq & Hm & He).
  assert (Hy : ∃ my ey, Prim2SF (1 / q) = S754_finite false my ey ∧ -53 <= ey <= -51
                 ∧ - 2 ^ 54 <= (Z.pos m * 2 ^ (e + 53)) * (Z.pos my * 2 ^ (ey + 53)) - 2 ^ 106 <= 2 ^ 54).
  { rewrite div_spec, Hq.
    rewrite Prim2SF_one.
    unfold SF64div.
    destruct (Z.eq_dec (Z.pos m) (2 ^ 52)) as [Em | Em].
    - assert (m = 4503599627370496%positive) as -> by lia.
      destruct He as [-> | [-> | [-> _]]].
      + exists 4503599627370496%positive, (-51). split; [reflexivity|]. simpl; lia.
      + exists 4503599627370496%positive, (-52). split; [reflexivity|]. simpl; lia.
      + exists 4503599627370496%positive, (-53). split; [reflexivity|]. simpl; lia.
    - assert (He' : e = -53 ∨ e = -52) by (destruct He as [?|[?|[_ ?]]]; [auto|auto|lia]).
      destruct (SFdiv_one m e ltac:(lia) He') as (mr & er & -> & Her & Hb).
      exists mr, er. split; [reflexivity|]. split; [lia|].
      destruct He' as [-> | ->]; destruct Her as [-> | ->]; simpl in *; lia. }
  destruct Hy as (my & ey & Hy & Hey & Hprod).
  exists (nearest4 m e), (nearest4 my ey).
  rewrite (toFixed4_small q false m e Hq) by lia.
  rewrite (toFixed4_small _ false my ey Hy) by lia.
  split; [reflexivity|]. split; [reflexivity|].
  pose proof (nearest4_bounds m e ltac:(lia)) as H1.
  pose proof (nearest4_bounds my ey Hey) as H2.
  cbv zeta in H1, H2.
  apply (product_bound (Z.pos m * 2 ^ (e + 53)) (Z.pos my * 2 ^ (ey + 53))); auto.
  - destruct He as [-> | [-> | [-> ->]]]; simpl; lia.
  - apply Z.mul_pos_pos; [lia | apply Z.pow_pos_nonneg; lia].
Qed.


(** ** The rates guard of [showResult] *)

Ltac unfold_prog :=
  unfold mbind, mret, prog_bind, prog_ret, res_bind, res_ret, lift, throw, emit in *.

Lemma showResult_no_rates rt obj :
  has_rates obj = Ok false →
  showResult rt obj = ([], Throw (Error "Rates missing from data!")).
Proof. intros H. unfold showResult. unfold_prog. rewrite H. reflexivity. Qed.

Lemma has_rates_absent m code :
  code = "AUD"%string ∨ code = "EUR"%string →
  rate_of (JObj m) code = None →
  has_rates (JObj m) = Ok false.
Proof.
  intros Hcode H. unfold has_rates, rate_of, getProp in *. unfold_prog.
  destruct (m !! lit "rates") as [rates|]; [|reflexivity].
  destruct rates as [| |b|x|s|l|r]; simpl;
    try reflexivity; try (repeat case_match; reflexivity).
  destruct Hcode as [-> | ->]; rewrite H; simpl; [reflexivity|].
  destruct (truthy _); reflexivity.
Qed.

Lemma has_rates_zero m a e :
  rate_of (JObj m) "AUD" = Some (JNum a) →
  rate_of (JObj m) "EUR" = Some (JNum e) →
  (a =? 0)%float = true ∨ (e =? 0)%float = true →
  has_rates (JObj m) = Ok false.
Proof.
  intros Ha He H0. unfold has_rates, rate_of, getProp in *. unfold_prog.
  destruct (m !! lit "rates") as [[| |b|x|s|l|r]|]; try discriminate.
  simpl. rewrite Ha, He. simpl.
  destruct H0 as [-> | ->]; simpl; [reflexivity|].
  destruct (negb _); reflexivity.
Qed.

(** C4: a snapshot one of whose two base rates is the Number zero makes
    [showResult] throw the error "Rates missing from data!" before anything is
    computed or printed: no text, hence no [Infinity] and no [NaN], reaches
    the output. *)
Theorem C4_zero_rate_fails_explicitly rt m a e :
  rate_of (JObj m) "AUD" = Some (JNum a) →
  rate_of (JObj m) "EUR" = Some (JNum e) →
  (a =? 0)%float = true ∨ (e =? 0)%float = true →
  showResult rt (JObj m) = ([], Throw (Error "Rates missing from data!")).
Proof. intros. apply showResult_no_rates. eapply has_rates_zero; eauto. Qed.

Lemma C4_witness :
  showResult sample_runtime (snapshot 1700000000 0 0.92)
  = ([], Throw (Error "Rates missing from data!"))
  ∧ showResult sample_runtime (snapshot 1700000000 1.5 (-0))
    = ([], Throw (Error "Rates missing from data!")).
Proof.
  split.
  - apply (C4_zero_rate_fails_explicitly sample_runtime _ 0 0.92);
      [reflexivity | reflexivity | left; reflexivity].
  - apply (C4_zero_rate_fails_explicitly sample_runtime _ 1.5 (-0));
      [reflexivity | reflexivity | right; reflexivity].
Defined.

(** C7: an object that lacks [rates.AUD] or [rates.EUR] makes [showResult]
    throw the error "Rates missing from data!"; nothing is printed. *)
Theorem C7_missing_rate_fails_explicitly rt m :
  rate_of (JObj m) "AUD" = None ∨ rate_of (JObj m) "EUR" = None →
  showResult rt (JObj m) = ([], Throw (Error "Rates missing from data!")).
Proof.
  intros [H | H]; apply showResult_no_rates.
  - apply (has_rates_absent m "AUD"); auto.
  - apply (has_rates_absent m "EUR"); auto.
Qed.

Lemma C7_witness :
  showResult sample_runtime (JObj bare)
  = ([], Throw (Error "Rates missing from data!"))
  ∧ showResult sample_runtime
      (JObj (<[lit "rates" := JObj (<[lit "AUD" := JNum 1.5]> ∅)]> ∅))
    = ([], Throw (Error "Rates missing from data!")).
Proof.
  split.
  - apply (C7_missing_rate_fails_explicitly sample_runtime bare). left. reflexivity.
  - apply (C7_missing_rate_fails_explicitly sample_runtime). right. reflexivity.
Defined.

(** ** [showResult] on a snapshot of two Numbers *)

Lemma Prim2SF_zero : Prim2SF 0 = S754_zero false.
Proof. reflexivity. Qed.

Lemma SFeqb_refl_finite s m e :
  SFeqb (S754_finite s m e) (S754_finite s m e) = true.
Proof.
  unfold SFeqb, SFcompare. rewrite Z.compare_refl, Pos.compare_cont_refl.
  destruct s; reflexivity.
Qed.

(** A Number is truthy unless it is a zero or [NaN]. *)
Lemma truthy_number x :
  truthy (JNum x) =
    match Prim2SF x with
    | S754_zero _ | S754_nan => false
    | _ => true
    end.
Proof.
  unfold truthy, is_nan. rewrite !FloatAxioms.eqb_spec, Prim2SF_zero.
  destruct (Prim2SF x) as [s|s| |s m e]; try reflexivity.
  - destruct s; reflexivity.
  - rewrite SFeqb_refl_finite. destruct s; reflexivity.
Qed.

(** A finite non-zero quotient has truthy operands. *)
Lemma quotient_finite_truthy a e s m ex :
  Prim2SF (a / e) = S754_finite s m ex →
  truthy (JNum a) = true ∧ truthy (JNum e) = true.
Proof.
  rewrite div_spec, !truthy_number. unfold SF64div.
  destruct (Prim2SF a) as [sa|sa| |sa ma ea], (Prim2SF e) as [se|se| |se me ee];
    simpl; intros H; try discriminate H; split; reflexivity.
Qed.

Lemma toFixed4_Fixed_finite x neg n :
  toFixed4 x = Fixed neg n → n ≠ 0 →
  ∃ s m e, Prim2SF x = S754_finite s m e.
Proof.
  unfold toFixed4. destruct (Prim2SF x) as [s|s| |s m e]; intros H Hn;
    try discriminate H; [congruence | eauto].
Qed.

Lemma showResult_snapshot rt t a e :
  truthy (JNum a) = true → truthy (JNum e) = true →
  showResult rt (snapshot t a e) =
    ([ConsoleLog (MSummary {|
        lastUpdated := newDate (t * 1000);
        eurAud := (pick_colour (1.5 <? numstr_number (toFixed4 (a / e)))%float,
                   toFixed4 (a / e));
        audEur := (pick_colour (0.7 <? numstr_number (toFixed4 (1 / (a / e))))%float,
                   toFixed4 (1 / (a / e))) |})],
     Ok tt).
Proof.
  intros Ha He. unfold showResult, has_rates.
  change (getProp (snapshot t a e) "rates")
    with (Ok (JObj (<[lit "AUD" := JNum a]> (<[lit "EUR" := JNum e]> ∅)))).
  change (getProp (snapshot t a e) "timestamp") with (Ok (JNum t)).
  unfold_prog.
  change (getProp (JObj (<[lit "AUD" := JNum a]> (<[lit "EUR" := JNum e]> ∅))) "AUD")
    with (Ok (JNum a)).
  change (getProp (JObj (<[lit "AUD" := JNum a]> (<[lit "EUR" := JNum e]> ∅))) "EUR")
    with (Ok (JNum e)).
  change (truthy (JObj ?m)) with true. cbv iota.
  rewrite Ha, He. reflexivity.
Qed.

(** [showResult] on an object whose two rates are truthy Numbers. *)
Lemma showResult_numbers rt m r a e t :
  m !! lit "rates" = Some (JObj r) →
  r !! lit "AUD" = Some (JNum a) → r !! lit "EUR" = Some (JNum e) →
  truthy (JNum a) = true → truthy (JNum e) = true →
  ToNumber rt (default JUndefined (m !! lit "timestamp")) = Ok t →
  showResult rt (JObj m) =
    ([ConsoleLog (MSummary {|
        lastUpdated := newDate (t * 1000);
        eurAud := (pick_colour (1.5 <? numstr_number (toFixed4 (a / e)))%float,
                   toFixed4 (a / e));
        audEur := (pick_colour (0.7 <? numstr_number (toFixed4 (1 / (a / e))))%float,
                   toFixed4 (1 / (a / e))) |})],
     Ok tt).
Proof.
  intros Hr Ha He Hta Hte Ht.
  assert (G1 : getProp (JObj m) "rates" = Ok (JObj r))
    by (unfold getProp; rewrite Hr; reflexivity).
  assert (G2 : getProp (JObj r) "AUD" = Ok (JNum a))
    by (unfold getProp; rewrite Ha; reflexivity).
  assert (G3 : getProp (JObj r) "EUR" = Ok (JNum e))
    by (unfold getProp; rewrite He; reflexivity).
  unfold showResult, has_rates. rewrite G1.
  change (getProp (JObj m) "timestamp")
    with (Ok (default JUndefined (m !! lit "timestamp"))).
  unfold_prog. rewrite G2, G3.
  change (truthy (JObj r)) with true. cbv iota.
  rewrite Hta, Hte. cbn [negb ToNumber]. rewrite Ht. reflexivity.
Qed.

(** C3 (amended): for a snapshot with rates AUD 1.5 and EUR 1, [showResult]
    prints the cross rate 1.5000 and the inverse 0.6667, and highlights
    neither: 1.5000 is not above 1.5 and 0.6667 is not above 0.7. *)
Theorem C3_rates_15_not_highlighted rt t :
  showResult rt (snapshot t 1.5 1) =
    ([ConsoleLog (MSummary {|
        lastUpdated := newDate (t * 1000);
        eurAud := (magenta, Fixed false 15000);
        audEur := (magenta, Fixed false 6667) |})],
     Ok tt)
  ∧ fixed_text false 15000 = "1.5000"%string
  ∧ fixed_text false 6667 = "0.6667"%string.
Proof.
  split; [|split; reflexivity].
  rewrite showResult_snapshot by reflexivity. reflexivity.
Qed.

(** C3, as stated, fails: the summary printed for rates AUD 1.5 and EUR 1
    does not highlight the AUD-per-EUR value. *)
Lemma C3_counterexample :
  ¬ ∃ s, summaries (showResult sample_runtime (snapshot 1700000000 1.5 1)).1 = [s]
         ∧ (eurAud s).1 = green_blink.
Proof.
  intros (s & Hs & Hc).
  rewrite showResult_snapshot in Hs by reflexivity.
  simpl in Hs. inversion Hs; subst. discriminate Hc.
Qed.

(** C9: the colour is chosen from the text of [toFixed(4)].  When the cross
    rate AUD / EUR is above 1.5 but its text is 1.5000, the AUD-per-EUR line
    is printed in magenta, not highlighted. *)
Theorem C9_highlight_uses_rounded_text rt t aud eur :
  (1.5 <? aud / eur)%float = true →
  toFixed4 (aud / eur) = Fixed false 15000 →
  ∃ other,
    showResult rt (snapshot t aud eur) =
      ([ConsoleLog (MSummary {|
          lastUpdated := newDate (t * 1000);
          eurAud := (magenta, Fixed false 15000);
          audEur := other |})],
       Ok tt).
Proof.
  intros Habove Htext.
  destruct (toFixed4_Fixed_finite _ _ _ Htext ltac:(lia)) as (s & m & e & Hq).
  destruct (quotient_finite_truthy _ _ _ _ _ Hq) as [Ha He].
  rewrite showResult_snapshot, Htext by assumption.
  eexists. reflexivity.
Qed.

Lemma C9_witness :
  ∃ other,
    showResult sample_runtime (snapshot 1700000000 1.50004 1) =
      ([ConsoleLog (MSummary {|
          lastUpdated := Some 1700000000000;
          eurAud := (magenta, Fixed false 15000);
          audEur := other |})],
       Ok tt).
Proof.
  apply (C9_highlight_uses_rounded_text sample_runtime 1700000000 1.50004 1);
    reflexivity.
Defined.

(** C2 (amended): when the computed cross rate AUD / EUR lies between 0.5
    and 2, the two values [showResult] prints, each rounded to four decimals,
    multiply to 1 up to 0.000125: as integers [n1], [n2] of ten-thousandths,
    [n1 * n2] is within 12500 of 10^8. *)
Theorem C2_rounded_rates_multiply_to_one rt t aud eur :
  (0.5 <=? aud / eur)%float = true →
  (aud / eur <=? 2)%float = true →
  ∃ c1 c2 n1 n2,
    showResult rt (snapshot t aud eur) =
      ([ConsoleLog (MSummary {|
          lastUpdated := newDate (t * 1000);
          eurAud := (c1, Fixed false n1);
          audEur := (c2, Fixed false n2) |})],
       Ok tt)
    ∧ - 12500 <= n1 * n2 - 100000000 <= 12500.
Proof.
  intros Hlo Hhi.
  destruct (between_half_and_two _ Hlo Hhi) as (m & e & Hq & _).
  destruct (quotient_finite_truthy _ _ _ _ _ Hq) as [Ha He].
  destruct (inverse_bound _ Hlo Hhi) as (n1 & n2 & H1 & H2 & Hb).
  rewrite showResult_snapshot, H1, H2 by assumption.
  do 4 eexists. split; [reflexivity | exact Hb].
Qed.

Lemma C2_witness :
  ∃ c1 c2 n1 n2,
    showResult sample_runtime (snapshot 1700000000 1.6 1) =
      ([ConsoleLog (MSummary {|
          lastUpdated := Some 1700000000000;
          eurAud := (c1, Fixed false n1);
          audEur := (c2, Fixed false n2) |})],
       Ok tt)
    ∧ - 12500 <= n1 * n2 - 100000000 <= 12500.
Proof.
  apply (C2_rounded_rates_multiply_to_one sample_runtime 1700000000 1.6 1);
    reflexivity.
Defined.

(** C2, as stated, fails: for the positive rates 1 and 100000 the two rounded
    cross rates are 0.0000 and 100000.0000, whose product is 0, and these are
    the two values the program prints. *)
Lemma C2_counterexample :
  crossRate 1 100000 = Fixed false 0
  ∧ crossRate 100000 1 = Fixed false 1000000000
  ∧ ¬ (- 12500 <= 0 * 1000000000 - 100000000 <= 12500)
  ∧ summaries (showResult sample_runtime (snapshot 1700000000 1 100000)).1
    = [{| lastUpdated := Some 1700000000000;
          eurAud := (magenta, Fixed false 0);
          audEur := (green_blink, Fixed false 1000000000) |}].
Proof.
  split; [reflexivity|]. split; [reflexivity|]. split; [lia|].
  rewrite showResult_snapshot by reflexivity. reflexivity.
Qed.

(** ** Traces of the stages *)

Lemma requests_app t1 t2 : requests (t1 ++ t2) = (requests t1 + requests t2)%nat.
Proof. unfold requests. rewrite filter_app, length_app. reflexivity. Qed.

Lemma summaries_app t1 t2 : summaries (t1 ++ t2) = summaries t1 ++ summaries t2.
Proof. unfold summaries. apply omap_app. Qed.

(** [showResult] either throws before printing or prints one summary. *)
Lemma showResult_shape rt obj :
  (∃ e, showResult rt obj = ([], Throw e))
  ∨ (∃ s, showResult rt obj = ([ConsoleLog (MSummary s)], Ok tt)).
Proof.
  unfold showResult. unfold_prog.
  destruct (has_rates obj) as [[|]|e]; simpl; eauto.
  destruct (getProp obj "rates") as [rates|e]; simpl; eauto.
  destruct (getProp rates "AUD") as [aud|e]; simpl; eauto.
  destruct (getProp rates "EUR") as [eur|e]; simpl; eauto.
  destruct (ToNumber rt aud) as [a|e]; simpl; eauto.
  destruct (ToNumber rt eur) as [b|e]; simpl; eauto.
  destruct (getProp obj "timestamp") as [ts|e]; simpl; eauto.
  destruct (ToNumber rt ts) as [t|e]; simpl; eauto.
Qed.

Lemma showResult_requests rt obj : requests (showResult rt obj).1 = 0%nat.
Proof.
  destruct (showResult_shape rt obj) as [[e ->] | [s ->]]; reflexivity.
Qed.

(** The API key stage. *)
Lemma load_key_accepts w contents :
  keyFile w = ReadOk contents → length (trim contents) = 32%nat →
  load_key w = ([], Ok (Some (trim contents))).
Proof.
  intros Hk Hl. unfold load_key. rewrite Hk. simpl. unfold_prog. simpl.
  rewrite Hl. simpl.
  destruct (trim contents); [discriminate Hl | reflexivity].
Qed.

Lemma load_key_rejects w :
  (∀ contents, keyFile w = ReadOk contents → length (trim contents) ≠ 32%nat) →
  load_key w = ([ConsoleError (MKeyHelp (apiKeyFile w))], Ok None).
Proof.
  intros Hk. unfold load_key. destruct (keyFile w) as [n|contents]; simpl.
  - reflexivity.
  - specialize (Hk contents eq_refl). unfold_prog. simpl.
    destruct (Nat.eqb_spec (length (trim contents)) 32) as [E|E]; [contradiction|].
    rewrite orb_true_r. reflexivity.
Qed.

(** The first [try] never lets an exception escape, and issues no request. *)
Lemma from_cache_returns rt w :
  ∃ t served, from_cache rt w = (t, Ok served) ∧ requests t = 0%nat.
Proof.
  unfold from_cache.
  set (handler := λ err : exn, _).
  assert (Hh : ∀ e, ∃ t, handler e = (t, Ok false) ∧ requests t = 0%nat).
  { intros e. unfold handler. unfold_prog.
    destruct (bool_decide _); eexists; split; reflexivity. }
  assert (Hthrow : ∀ e, ∃ t served,
             try_catch (throw e) handler = (t, Ok served) ∧ requests t = 0%nat).
  { intros e. unfold try_catch, throw. destruct (Hh e) as (t & -> & Ht).
    exists t, false. split; [reflexivity | exact Ht]. }
  unfold_prog. fold (@throw bool).
  destruct (readFileSync (cacheFile w)) as [text|e]; [|apply Hthrow].
  destruct (parse rt text) as [obj|e]; [|apply Hthrow].
  destruct (getProp obj "timestamp") as [ts|e]; [|apply Hthrow].
  destruct (ToNumber rt ts) as [t|e]; [|apply Hthrow].
  destruct (still_fresh w t).
  - destruct (showResult_shape rt obj) as [[e He] | [s Hs]].
    + change (showResult rt obj ≫= λ _, mret true) with
        (let '(t, r) := showResult rt obj in
         match r with
         | Ok a => let '(t', r') := (([], Ok true) : prog bool) in (t ++ t', r')
         | Throw e => (t, Throw e)
         end).
      rewrite He. apply Hthrow.
    + change (showResult rt obj ≫= λ _, mret true) with
        (let '(t, r) := showResult rt obj in
         match r with
         | Ok a => let '(t', r') := (([], Ok true) : prog bool) in (t ++ t', r')
         | Throw e => (t, Throw e)
         end).
      rewrite Hs. eexists _, true. split; reflexivity.
  - eexists [], false. split; reflexivity.
Qed.

(** The ['end'] handler: the cache write is issued first; then the body is
    parsed, and either reported as an error, or presented. *)
Lemma on_end_unfold rt w body :
  on_end rt w body =
    match JSON_parse rt body with
    | None => ([WriteFile (currentRatesJSON w) body], Throw SyntaxError)
    | Some obj =>
        match getProp obj "error" with
        | Throw e => ([WriteFile (currentRatesJSON w) body], Throw e)
        | Ok err =>
            if truthy err
            then ([WriteFile (currentRatesJSON w) body; ConsoleError (MValue obj)], Ok tt)
            else (WriteFile (currentRatesJSON w) body :: (showResult rt obj).1,
                  (showResult rt obj).2)
        end
    end.
Proof.
  unfold on_end, parse. unfold_prog.
  destruct (JSON_parse rt body) as [obj|]; [|reflexivity].
  destruct (getProp obj "error") as [err|e]; [|reflexivity].
  destruct (truthy err); [reflexivity|].
  destruct (showResult rt obj) as [t r]. reflexivity.
Qed.

Lemma on_end_requests rt w body : requests (on_end rt w body).1 = 0%nat.
Proof.
  rewrite on_end_unfold.
  destruct (JSON_parse rt body) as [obj|]; [|reflexivity].
  destruct (getProp obj "error") as [err|e]; [|reflexivity].
  destruct (truthy err); [reflexivity|].
  simpl. apply showResult_requests.
Qed.

Lemma fetch_unfold rt w apiKey :
  fetch rt w apiKey =
    match response w with
    | None =>
        ([HttpRequest (lit "openexchangerates.org")
                      (lit "/api/latest.json?app_id=" ++ apiKey)],
         Throw RequestError)
    | Some chunks =>
        (HttpRequest (lit "openexchangerates.org")
                     (lit "/api/latest.json?app_id=" ++ apiKey)
         :: ConsoleLog (MText "Fetching new currency exchange data:")
         :: (on_end rt w (received chunks)).1
            ++ match (on_end rt w (received chunks)).2 with
               | Ok _ => (write_done w).1
               | Throw _ => []
               end,
         match (on_end rt w (received chunks)).2 with
         | Ok _ => Ok tt
         | Throw e => Throw e
         end)
    end.
Proof.
  unfold fetch, received. unfold_prog.
  destruct (response w) as [chunks|]; [|reflexivity].
  destruct (on_end rt w _) as [t [[]|e]]; simpl.
  - unfold write_done. destruct (writeError w); reflexivity.
  - rewrite app_nil_r. reflexivity.
Qed.

(** Whatever is received, the fetch issues exactly one request. *)
Lemma fetch_requests rt w apiKey : requests (fetch rt w apiKey).1 = 1%nat.
Proof.
  rewrite fetch_unfold. destruct (response w) as [chunks|]; [|reflexivity].
  cbn [fst]. change (requests (?a :: ?b :: ?t)) with (S (requests t)).
  rewrite requests_app, on_end_requests.
  destruct (on_end rt w (received chunks)).2; [|reflexivity].
  unfold write_done. destruct (writeError w); reflexivity.
Qed.

Lemma run_unfold rt w :
  run rt w =
    let '(t, r) := from_cache rt w in
    match r with
    | Ok true => (t ++ [], Ok tt)
    | Ok false =>
        let '(t', r') := fetch_stage rt w in (t ++ t', r')
    | Throw e => (t, Throw e)
    end.
Proof.
  unfold run. unfold_prog. destruct (from_cache rt w) as [t [[|]|e]]; reflexivity.
Qed.

Lemma fetch_stage_unfold rt w :
  fetch_stage rt w =
    let '(t, r) := load_key w in
    match r with
    | Ok (Some apiKey) => let '(t', r') := fetch rt w apiKey in (t ++ t', r')
    | Ok None => (t ++ [], Ok tt)
    | Throw e => (t, Throw e)
    end.
Proof.
  unfold fetch_stage. unfold_prog. destruct (load_key w) as [t [[k|]|e]]; reflexivity.
Qed.

(** C5 (amended): a credential file whose trimmed content does not have
    exactly 32 characters is rejected whenever it is read.  What follows the
    cache stage is only the message naming [api_key.txt]; a run whose cache
    is not served ends there with that message; no run with such a file
    issues an HTTP request.  A run whose cache is served ends at the first
    [return] and never reads the credential: it prints no message. *)
Theorem C5_bad_credential_no_request rt w contents :
  keyFile w = ReadOk contents →
  length (trim contents) ≠ 32%nat →
  fetch_stage rt w = ([ConsoleError (MKeyHelp (apiKeyFile w))], Ok tt)
  ∧ requests (run rt w).1 = 0%nat
  ∧ (∀ t, from_cache rt w = (t, Ok false) →
          run rt w = (t ++ [ConsoleError (MKeyHelp (apiKeyFile w))], Ok tt))
  ∧ (∀ t, from_cache rt w = (t, Ok true) → run rt w = (t, Ok tt)).
Proof.
  intros Hk Hl.
  assert (Hrej : load_key w = ([ConsoleError (MKeyHelp (apiKeyFile w))], Ok None)).
  { apply load_key_rejects. intros c Hc. rewrite Hk in Hc. congruence. }
  assert (Hstage : fetch_stage rt w = ([ConsoleError (MKeyHelp (apiKeyFile w))], Ok tt)).
  { rewrite fetch_stage_unfold, Hrej. reflexivity. }
  split; [exact Hstage|]. split; [|split].
  - rewrite run_unfold, Hstage.
    destruct (from_cache_returns rt w) as (t & served & -> & Ht).
    destruct served; cbn [fst]; rewrite requests_app, Ht; reflexivity.
  - intros t Ht. rewrite run_unfold, Ht, Hstage. reflexivity.
  - intros t Ht. rewrite run_unfold, Ht. rewrite app_nil_r. reflexivity.
Qed.

Lemma C5_witness :
  fetch_stage sample_runtime
    (sample_world 1700003600000 (ReadFail 34)
       (ReadOk (lit "0123456789abcdef0123456789abcde" ++ [10%N])) rates_text)
  = ([ConsoleError (MKeyHelp {| dir := lit "/opt/getRates"; base := "api_key.txt" |})],
     Ok tt)
  ∧ requests (run sample_runtime
       (sample_world 1700003600000 (ReadFail 34)
          (ReadOk (lit "0123456789abcdef0123456789abcde" ++ [10%N])) rates_text)).1
    = 0%nat.
Proof.
  destruct (C5_bad_credential_no_request sample_runtime
              (sample_world 1700003600000 (ReadFail 34)
                 (ReadOk (lit "0123456789abcdef0123456789abcde" ++ [10%N])) rates_text)
              (lit "0123456789abcdef0123456789abcde" ++ [10%N]))
    as (H1 & H2 & _).
  - reflexivity.
  - vm_compute. discriminate.
  - split; [exact H1 | exact H2].
Defined.

(** C5, as stated, fails: with a fresh cached snapshot the run prints the
    rates and ends before the credential file is read.  A file of 31
    characters then draws no message, and the run does not abort. *)
Lemma C5_counterexample :
  keyFile (sample_world 1700000001000 (ReadOk rates_text)
             (ReadOk (lit "0123456789abcdef0123456789abcde")) rates_text)
  = ReadOk (lit "0123456789abcdef0123456789abcde")
  ∧ length (trim (lit "0123456789abcdef0123456789abcde")) = 31%nat
  ∧ run sample_runtime
      (sample_world 1700000001000 (ReadOk rates_text)
         (ReadOk (lit "0123456789abcdef0123456789abcde")) rates_text)
    = ([ConsoleLog (MSummary {|
          lastUpdated := Some 1700000000000;
          eurAud := (magenta, Fixed false 15000);
          audEur := (magenta, Fixed false 6667) |})],
       Ok tt).
Proof. split; [reflexivity|]. split; reflexivity. Qed.

(** C6 (amended): when the received body parses to an object whose [error]
    member is truthy, the fetch reports that object with [console.error] and
    returns; [showResult] is not called, so no summary is printed and nothing
    is thrown. *)
Theorem C6_truthy_error_short_circuits rt w apiKey chunks obj err :
  response w = Some chunks →
  JSON_parse rt (received chunks) = Some obj →
  getProp obj "error" = Ok err →
  truthy err = true →
  fetch rt w apiKey =
    ([HttpRequest (lit "openexchangerates.org")
                  (lit "/api/latest.json?app_id=" ++ apiKey);
      ConsoleLog (MText "Fetching new currency exchange data:");
      WriteFile (currentRatesJSON w) (received chunks);
      ConsoleError (MValue obj)] ++ (write_done w).1,
     Ok tt).
Proof.
  intros Hr Hp He Ht.
  rewrite fetch_unfold, Hr, on_end_unfold, Hp, He, Ht. reflexivity.
Qed.

Lemma C6_witness :
  fetch sample_runtime
    (sample_world 1700003600000 (ReadFail 34) (ReadOk key32) refusal_text) key32
  = ([HttpRequest (lit "openexchangerates.org")
                  (lit "/api/latest.json?app_id=" ++ key32);
      ConsoleLog (MText "Fetching new currency exchange data:");
      WriteFile {| dir := lit "/opt/getRates"; base := "currentRates.json" |} refusal_text;
      ConsoleError (MValue (JObj refusal))],
     Ok tt).
Proof.
  apply (C6_truthy_error_short_circuits sample_runtime
           (sample_world 1700003600000 (ReadFail 34) (ReadOk key32) refusal_text)
           key32 [refusal_text] (JObj refusal) (JBool true));
    reflexivity.
Defined.

(** C6, as stated, fails: a body that parses to an object with an [error]
    member that is [false] is passed to [showResult], which prints its
    rates. *)
Lemma C6_counterexample :
  JSON_parse sample_runtime flagged_text = Some (JObj flagged)
  ∧ flagged !! lit "error" = Some (JBool false)
  ∧ summaries
      (run sample_runtime
         (sample_world 1700003600000 (ReadFail 34) (ReadOk key32) flagged_text)).1
    = [{| lastUpdated := Some 1700000000000;
          eurAud := (magenta, Fixed false 15000);
          audEur := (magenta, Fixed false 6667) |}].
Proof. split; [|split]; reflexivity. Qed.

(** The cache stage prints at most one [console.log] line. *)
Lemma from_cache_logs rt w :
  ∃ t served, from_cache rt w = (t, Ok served) ∧ (t = [] ∨ ∃ m, t = [ConsoleLog m]).
Proof.
  unfold from_cache.
  set (handler := λ err : exn, _).
  assert (Hthrow : ∀ e, ∃ t served,
             try_catch (throw e) handler = (t, Ok served) ∧ (t = [] ∨ ∃ m, t = [ConsoleLog m])).
  { intros e. unfold try_catch, throw, handler. unfold_prog.
    destruct (bool_decide _); eexists _, false; split; try reflexivity; right; eauto. }
  unfold_prog. fold (@throw bool).
  destruct (readFileSync (cacheFile w)) as [text|e]; [|apply Hthrow].
  destruct (parse rt text) as [obj|e]; [|apply Hthrow].
  destruct (getProp obj "timestamp") as [ts|e]; [|apply Hthrow].
  destruct (ToNumber rt ts) as [t|e]; [|apply Hthrow].
  destruct (still_fresh w t).
  - change (showResult rt obj ≫= λ _, mret true) with
      (let '(t, r) := showResult rt obj in
       match r with
       | Ok a => let '(t', r') := (([], Ok true) : prog bool) in (t ++ t', r')
       | Throw e => (t, Throw e)
       end).
    destruct (showResult_shape rt obj) as [[e ->] | [s ->]].
    + apply Hthrow.
    + eexists _, true. split; [reflexivity|]. right. eauto.
  - eexists [], false. split; [reflexivity | left; reflexivity].
Qed.

(** The key stage either yields a key silently or prints the request for one. *)
Lemma load_key_shape w :
  (∃ apiKey, load_key w = ([], Ok (Some apiKey)))
  ∨ load_key w = ([ConsoleError (MKeyHelp (apiKeyFile w))], Ok None).
Proof.
  destruct (keyFile w) as [n|contents] eqn:Hk.
  - right. apply load_key_rejects. intros c Hc. congruence.
  - destruct (Nat.eq_dec (length (trim contents)) 32%nat) as [E|E].
    + left. eexists. apply load_key_accepts; eauto.
    + right. apply load_key_rejects. intros c Hc. congruence.
Qed.

(** A failed cache write changes nothing but one line, in every run.  With
    the write failing, the run ends the same way and prints the same summaries
    as with the write succeeding; its trace is the same, followed by the
    logged write error whenever a body was written and the handler returned. *)
Lemma write_outcome_adds_one_line rt w err :
  (run rt (with_write w (Some err))).2 = (run rt (with_write w None)).2
  ∧ summaries (run rt (with_write w (Some err))).1
    = summaries (run rt (with_write w None)).1
  ∧ ((run rt (with_write w (Some err))).1 = (run rt (with_write w None)).1
     ∨ (run rt (with_write w (Some err))).1
       = (run rt (with_write w None)).1 ++ [ConsoleError (MExn err)])
  ∧ ((run rt (with_write w None)).2 = Ok tt →
     (∃ file data, WriteFile file data ∈ (run rt (with_write w None)).1) →
     (run rt (with_write w (Some err))).1
     = (run rt (with_write w None)).1 ++ [ConsoleError (MExn err)]).
Proof.
  rewrite !run_unfold, !fetch_stage_unfold.
  change (from_cache rt (with_write w ?e)) with (from_cache rt w).
  change (load_key (with_write w ?e)) with (load_key w).
  destruct (from_cache_logs rt w) as (t0 & served & -> & Ht0).
  assert (Hnw0 : ∀ file data, WriteFile file data ∉ t0).
  { intros file data Hin. destruct Ht0 as [-> | [m ->]].
    - inversion Hin.
    - apply list_elem_of_singleton in Hin. discriminate Hin. }
  destruct served.
  { cbn [fst snd]. repeat split; auto.
    intros _ (file & data & Hin). rewrite app_nil_r in Hin.
    exfalso. eapply Hnw0, Hin. }
  destruct (load_key_shape w) as [[apiKey ->] | ->].
  - rewrite !fetch_unfold.
    change (response (with_write w ?e)) with (response w).
    change (on_end rt (with_write w ?e)) with (on_end rt w).
    destruct (response w) as [chunks|].
    + destruct (on_end rt w (received chunks)) as [t1 [[]|e]]; cbn [fst snd].
      * change (write_done (with_write w (Some err))).1 with [ConsoleError (MExn err)].
        change (write_done (with_write w None)).1 with (@nil event).
        rewrite !app_nil_r, !app_nil_l.
        set (req := HttpRequest _ _). set (msg := ConsoleLog _).
        assert (E : t0 ++ req :: msg :: t1 ++ [ConsoleError (MExn err)]
                    = (t0 ++ req :: msg :: t1) ++ [ConsoleError (MExn err)])
          by (rewrite <- app_assoc; reflexivity).
        rewrite E. repeat split; auto.
        rewrite summaries_app. simpl. apply app_nil_r.
      * repeat split; auto. intros H. discriminate H.
    + cbn [fst snd]. repeat split; auto. intros H. discriminate H.
  - cbn [fst snd]. repeat split; auto.
    intros _ (file & data & Hin). exfalso.
    rewrite app_nil_r in Hin. apply elem_of_app in Hin as [Hin | Hin].
    + eapply Hnw0, Hin.
    + apply list_elem_of_singleton in Hin. discriminate Hin.
Qed.

(** C8: a failure while writing the fetched body to the cache file is not
    fatal.  When the cache is not served, the key is accepted and the
    response parses to a snapshot with two truthy rates and no truthy [error]
    member, the run with the write failing with [err] issues the request,
    hands the body to [fs.writeFile], prints the rate summary computed from
    the parsed object, logs [err] with [console.error] and returns normally;
    the summary is the one printed when the write succeeds, and the logged
    error is the only difference between the two runs. *)
Theorem C8_write_failure_not_fatal rt w err t0 apiKey chunks m r a e t :
  from_cache rt w = (t0, Ok false) →
  load_key w = ([], Ok (Some apiKey)) →
  response w = Some chunks →
  JSON_parse rt (received chunks) = Some (JObj m) →
  truthy (default JUndefined (m !! lit "error")) = false →
  m !! lit "rates" = Some (JObj r) →
  r !! lit "AUD" = Some (JNum a) → r !! lit "EUR" = Some (JNum e) →
  truthy (JNum a) = true → truthy (JNum e) = true →
  ToNumber rt (default JUndefined (m !! lit "timestamp")) = Ok t →
  let printed :=
    {| lastUpdated := newDate (t * 1000);
       eurAud := (pick_colour (1.5 <? numstr_number (toFixed4 (a / e)))%float,
                  toFixed4 (a / e));
       audEur := (pick_colour (0.7 <? numstr_number (toFixed4 (1 / (a / e))))%float,
                  toFixed4 (1 / (a / e))) |} in
  run rt (with_write w (Some err)) =
    (t0 ++ [request_for apiKey;
            ConsoleLog (MText "Fetching new currency exchange data:");
            WriteFile (currentRatesJSON w) (received chunks);
            ConsoleLog (MSummary printed);
            ConsoleError (MExn err)],
     Ok tt)
  ∧ run rt (with_write w None) =
    (t0 ++ [request_for apiKey;
            ConsoleLog (MText "Fetching new currency exchange data:");
            WriteFile (currentRatesJSON w) (received chunks);
            ConsoleLog (MSummary printed)],
     Ok tt)
  ∧ summaries (run rt (with_write w (Some err))).1 = summaries t0 ++ [printed].
Proof.
  intros Hc Hk Hresp Hp Herr Hr Ha He Hta Hte Ht printed.
  assert (Hon : on_end rt w (received chunks) =
                ([WriteFile (currentRatesJSON w) (received chunks);
                  ConsoleLog (MSummary printed)], Ok tt)).
  { rewrite on_end_unfold, Hp. unfold getProp at 1. rewrite Herr.
    rewrite (showResult_numbers rt m r a e t Hr Ha He Hta Hte Ht). reflexivity. }
  assert (Hrun : ∀ o, run rt (with_write w o) =
            (t0 ++ [request_for apiKey;
                    ConsoleLog (MText "Fetching new currency exchange data:");
                    WriteFile (currentRatesJSON w) (received chunks);
                    ConsoleLog (MSummary printed)]
                ++ (write_done (with_write w o)).1,
             Ok tt)).
  { intros o. rewrite run_unfold.
    change (from_cache rt (with_write w o)) with (from_cache rt w). rewrite Hc.
    rewrite fetch_stage_unfold.
    change (load_key (with_write w o)) with (load_key w). rewrite Hk.
    rewrite fetch_unfold.
    change (response (with_write w o)) with (response w). rewrite Hresp.
    change (on_end rt (with_write w o)) with (on_end rt w). rewrite Hon.
    cbn [fst snd]. destruct o; reflexivity. }
  split; [|split].
  - rewrite (Hrun (Some err)). reflexivity.
  - rewrite (Hrun None). reflexivity.
  - rewrite (Hrun (Some err)). cbn [fst]. rewrite summaries_app. reflexivity.
Qed.

Lemma C8_witness :
  run sample_runtime
    (with_write (sample_world 1700003600000 (ReadFail 34) (ReadOk key32) rates_text)
       (Some (FsError 28)))
  = ([ConsoleLog (MText "Cached data file missing...");
      request_for key32;
      ConsoleLog (MText "Fetching new currency exchange data:");
      WriteFile {| dir := lit "/opt/getRates"; base := "currentRates.json" |} rates_text;
      ConsoleLog (MSummary {|
        lastUpdated := Some 1700000000000;
        eurAud := (magenta, Fixed false 15000);
        audEur := (magenta, Fixed false 6667) |});
      ConsoleError (MExn (FsError 28))],
     Ok tt).
Proof.
  apply (C8_write_failure_not_fatal sample_runtime
           (sample_world 1700003600000 (ReadFail 34) (ReadOk key32) rates_text)
           (FsError 28) [ConsoleLog (MText "Cached data file missing...")] key32
           [rates_text]
           (<[lit "timestamp" := JNum (Z2F 1700000000)]>
              (<[lit "rates" := JObj (<[lit "AUD" := JNum 1.5]>
                                        (<[lit "EUR" := JNum 1]> ∅))]> ∅))
           (<[lit "AUD" := JNum 1.5]> (<[lit "EUR" := JNum 1]> ∅))
           1.5 1 (Z2F 1700000000)); reflexivity.
Defined.

(** ** The cache stage *)

Lemma ToNumber_number rt x : ToNumber rt (JNum x) = Ok x.
Proof. reflexivity. Qed.

(** A snapshot that passes the freshness test is presented; an exception of
    [showResult] is caught and logged, and the program goes on. *)
Lemma from_cache_fresh rt w text obj ts t :
  cacheFile w = ReadOk text → JSON_parse rt text = Some obj →
  getProp obj "timestamp" = Ok ts → ToNumber rt ts = Ok t →
  still_fresh w t = true →
  from_cache rt w =
    match showResult rt obj with
    | (tr, Ok _) => (tr, Ok true)
    | (tr, Throw e) =>
        (tr ++ [ConsoleLog (if bool_decide (errno_of e = Some 34)
                            then MText "Cached data file missing..."
                            else MExn e)],
         Ok false)
    end.
Proof.
  intros Hc Hp Hts Ht Hf. unfold from_cache. rewrite Hc.
  unfold_prog. cbn [readFileSync]. unfold parse. rewrite Hp, Hts, Ht, Hf.
  destruct (showResult rt obj) as [tr [[]|e]]; simpl.
  - rewrite app_nil_r. reflexivity.
  - destruct (bool_decide _); reflexivity.
Qed.

Lemma from_cache_stale rt w text obj ts t :
  cacheFile w = ReadOk text → JSON_parse rt text = Some obj →
  getProp obj "timestamp" = Ok ts → ToNumber rt ts = Ok t →
  still_fresh w t = false →
  from_cache rt w = ([], Ok false).
Proof.
  intros Hc Hp Hts Ht Hf. unfold from_cache. rewrite Hc.
  unfold_prog. cbn [readFileSync]. unfold parse. rewrite Hp, Hts, Ht, Hf.
  reflexivity.
Qed.

Lemma from_cache_absent rt w n :
  cacheFile w = ReadFail n →
  from_cache rt w =
    ([ConsoleLog (if bool_decide (n = 34)
                  then MText "Cached data file missing..."
                  else MExn (FsError n))],
     Ok false).
Proof.
  intros Hc. unfold from_cache. rewrite Hc. simpl. unfold_prog. simpl.
  destruct (bool_decide_reflect (Some n = Some 34)) as [E|E];
    destruct (bool_decide_reflect (n = 34)) as [E'|E']; try reflexivity; congruence.
Qed.

Lemma from_cache_unparsable rt w text :
  cacheFile w = ReadOk text → JSON_parse rt text = None →
  from_cache rt w = ([ConsoleLog (MExn SyntaxError)], Ok false).
Proof.
  intros Hc Hp. unfold from_cache. rewrite Hc.
  unfold_prog. cbn [readFileSync]. unfold parse. rewrite Hp. reflexivity.
Qed.

(** Once the cache stage has fallen through, a run with a well-formed key
    issues exactly one request. *)
Lemma run_fetches_once rt w t contents :
  from_cache rt w = (t, Ok false) → requests t = 0%nat →
  keyFile w = ReadOk contents → length (trim contents) = 32%nat →
  requests (run rt w).1 = 1%nat.
Proof.
  intros Hc Ht Hk Hl.
  rewrite run_unfold, Hc, fetch_stage_unfold, (load_key_accepts w contents Hk Hl).
  pose proof (fetch_requests rt w (trim contents)) as Hf.
  destruct (fetch rt w (trim contents)) as [t' r']. cbn [fst] in *.
  rewrite requests_app, Ht. exact Hf.
Qed.

(** C1 (amended): a cached snapshot whose age [now - timestamp * 1000] is
    strictly below 3600000 ms, and which [showResult] can present, is
    presented and nothing else happens: no HTTP request.  With a well-formed
    API key, a run whose cache file is absent, or unparsable, or holds a
    snapshot aged 3600000 ms or more, issues exactly one HTTP request. *)
Theorem C1_cache_decides_fetch rt w :
  (∀ text obj t s,
     cacheFile w = ReadOk text → JSON_parse rt text = Some obj →
     getProp obj "timestamp" = Ok (JNum (Z2F t)) →
     0 < t → 1000 * t < 2 ^ 53 → 0 < now w < 2 ^ 53 →
     now w - 1000 * t < 3600000 →
     showResult rt obj = ([ConsoleLog (MSummary s)], Ok tt) →
     run rt w = ([ConsoleLog (MSummary s)], Ok tt))
  ∧ (∀ contents,
       keyFile w = ReadOk contents → length (trim contents) = 32%nat →
       (∃ n, cacheFile w = ReadFail n)
       ∨ (∃ text, cacheFile w = ReadOk text ∧ JSON_parse rt text = None)
       ∨ (∃ text obj t,
            cacheFile w = ReadOk text ∧ JSON_parse rt text = Some obj
            ∧ getProp obj "timestamp" = Ok (JNum (Z2F t))
            ∧ 0 < t ∧ 1000 * t < 2 ^ 53 ∧ 0 < now w < 2 ^ 53
            ∧ 3600000 <= now w - 1000 * t) →
       requests (run rt w).1 = 1%nat).
Proof.
  split.
  - intros text obj t s Hc Hp Hts Ht Ht' Hnow Hage Hshow.
    assert (Hf : still_fresh w (Z2F t) = true).
    { rewrite still_fresh_age by assumption. apply Z.ltb_lt. exact Hage. }
    rewrite run_unfold,
      (from_cache_fresh rt w text obj _ _ Hc Hp Hts (ToNumber_number rt _) Hf), Hshow.
    reflexivity.
  - intros contents Hk Hl [[n Hc] | [(text & Hc & Hp) | (text & obj & t & Hc & Hp & Hts & Ht & Ht' & Hnow & Hage)]].
    + eapply run_fetches_once; eauto using from_cache_absent.
    + eapply run_fetches_once; eauto using from_cache_unparsable.
    + assert (Hf : still_fresh w (Z2F t) = false).
      { rewrite still_fresh_age by assumption. apply Z.ltb_ge. lia. }
      eapply (run_fetches_once rt w []); eauto.
      eapply from_cache_stale; eauto.
Qed.

Lemma C1_witness :
  run sample_runtime
    (sample_world 1700003599999 (ReadOk rates_text) (ReadOk key32) rates_text)
  = ([ConsoleLog (MSummary {|
        lastUpdated := Some 1700000000000;
        eurAud := (magenta, Fixed false 15000);
        audEur := (magenta, Fixed false 6667) |})],
     Ok tt)
  ∧ requests (run sample_runtime
       (sample_world 1700007200000 (ReadOk rates_text) (ReadOk key32) rates_text)).1
    = 1%nat.
Proof.
  split.
  - apply (proj1 (C1_cache_decides_fetch sample_runtime
             (sample_world 1700003599999 (ReadOk rates_text) (ReadOk key32) rates_text))
             rates_text (snapshot (Z2F 1700000000) 1.5 1) 1700000000);
      try reflexivity; simpl; lia.
  - apply (proj2 (C1_cache_decides_fetch sample_runtime
             (sample_world 1700007200000 (ReadOk rates_text) (ReadOk key32) rates_text))
             key32); try reflexivity.
    right; right. exists rates_text, (snapshot (Z2F 1700000000) 1.5 1), 1700000000.
    repeat split; try reflexivity; simpl; lia.
Defined.

(** C1, as stated, fails: a valid cached snapshot aged exactly 3600000 ms is
    not used; the program issues an HTTP request. *)
Lemma C1_counterexample :
  JSON_parse sample_runtime rates_text = Some (snapshot (Z2F 1700000000) 1.5 1)
  ∧ now (sample_world 1700003600000 (ReadOk rates_text) (ReadOk key32) rates_text)
    - 1000 * 1700000000 <= 3600000
  ∧ requests (run sample_runtime
       (sample_world 1700003600000 (ReadOk rates_text) (ReadOk key32) rates_text)).1
    = 1%nat.
Proof. split; [reflexivity|]. split; [simpl; lia | reflexivity]. Qed.

(** C10 (amended): an object that lacks [rates.AUD] or [rates.EUR] is
    treated differently by origin.  Read from the cache with an age strictly
    below 3600000 ms, the error "Rates missing from data!" is caught and
    logged and the run continues with the fetch, which, the API key being
    well-formed, issues exactly one request.  Received as the response body
    and carrying no truthy [error] member, the same error ends the run as an
    uncaught exception after that one request. *)
Theorem C10_invalid_rates_by_origin rt w m :
  rate_of (JObj m) "AUD" = None ∨ rate_of (JObj m) "EUR" = None →
  (∀ text t contents,
     cacheFile w = ReadOk text → JSON_parse rt text = Some (JObj m) →
     m !! lit "timestamp" = Some (JNum (Z2F t)) →
     0 < t → 1000 * t < 2 ^ 53 → 0 < now w < 2 ^ 53 →
     now w - 1000 * t < 3600000 →
     keyFile w = ReadOk contents → length (trim contents) = 32%nat →
     run rt w = (ConsoleLog (MExn (Error "Rates missing from data!"))
                 :: (fetch rt w (trim contents)).1,
                 (fetch rt w (trim contents)).2)
     ∧ requests (run rt w).1 = 1%nat)
  ∧ (∀ apiKey chunks,
       response w = Some chunks →
       JSON_parse rt (received chunks) = Some (JObj m) →
       truthy (default JUndefined (m !! lit "error")) = false →
       fetch rt w apiKey =
         ([HttpRequest (lit "openexchangerates.org")
                       (lit "/api/latest.json?app_id=" ++ apiKey);
           ConsoleLog (MText "Fetching new currency exchange data:");
           WriteFile (currentRatesJSON w) (received chunks)],
          Throw (Error "Rates missing from data!"))).
Proof.
  intros Hlack.
  assert (Hshow : showResult rt (JObj m) = ([], Throw (Error "Rates missing from data!"))).
  { apply showResult_no_rates.
    destruct Hlack as [H | H];
      [apply (has_rates_absent m "AUD") | apply (has_rates_absent m "EUR")]; auto. }
  split.
  - intros text t contents Hc Hp Hts Ht Ht' Hnow Hage Hk Hl.
    assert (Hf : still_fresh w (Z2F t) = true).
    { rewrite still_fresh_age by assumption. apply Z.ltb_lt. exact Hage. }
    assert (Hcache : from_cache rt w
                     = ([ConsoleLog (MExn (Error "Rates missing from data!"))], Ok false)).
    { rewrite (from_cache_fresh rt w text (JObj m) (JNum (Z2F t)) (Z2F t)); auto.
      - rewrite Hshow. reflexivity.
      - unfold getProp. rewrite Hts. reflexivity. }
    split.
    + rewrite run_unfold, Hcache, fetch_stage_unfold, (load_key_accepts w contents Hk Hl).
      destruct (fetch rt w (trim contents)) as [t' r']. reflexivity.
    + eapply run_fetches_once; eauto.
  - intros apiKey chunks Hr Hp Herr.
    assert (Hon : on_end rt w (received chunks)
                  = ([WriteFile (currentRatesJSON w) (received chunks)],
                     Throw (Error "Rates missing from data!"))).
    { rewrite on_end_unfold, Hp. unfold getProp. rewrite Herr, Hshow. reflexivity. }
    rewrite fetch_unfold, Hr, Hon. reflexivity.
Qed.

Lemma C10_witness :
  requests (run sample_runtime
     (sample_world 1700000001000 (ReadOk bare_text) (ReadOk key32) rates_text)).1
  = 1%nat
  ∧ fetch sample_runtime
      (sample_world 1700000001000 (ReadFail 34) (ReadOk key32) bare_text) key32
    = ([HttpRequest (lit "openexchangerates.org")
                    (lit "/api/latest.json?app_id=" ++ key32);
        ConsoleLog (MText "Fetching new currency exchange data:");
        WriteFile {| dir := lit "/opt/getRates"; base := "currentRates.json" |} bare_text],
       Throw (Error "Rates missing from data!")).
Proof.
  split.
  - apply (proj1 (C10_invalid_rates_by_origin sample_runtime
             (sample_world 1700000001000 (ReadOk bare_text) (ReadOk key32) rates_text)
             bare (or_introl eq_refl))
             bare_text 1700000000 key32);
      try reflexivity; simpl; lia.
  - apply (proj2 (C10_invalid_rates_by_origin sample_runtime
             (sample_world 1700000001000 (ReadFail 34) (ReadOk key32) bare_text)
             bare (or_introl eq_refl))
             key32 [bare_text]); reflexivity.
Defined.

(** C10, as stated, fails: with a cached object that lacks its rates, aged
    one second, and no API key file, the error is logged and no HTTP request
    follows. *)
Lemma C10_counterexample :
  JSON_parse sample_runtime bare_text = Some (JObj bare)
  ∧ rate_of (JObj bare) "AUD" = None
  ∧ now (sample_world 1700000001000 (ReadOk bare_text) (ReadFail 34) rates_text)
    - 1000 * 1700000000 < 3600000
  ∧ run sample_runtime
      (sample_world 1700000001000 (ReadOk bare_text) (ReadFail 34) rates_text)
    = ([ConsoleLog (MExn (Error "Rates missing from data!"));
        ConsoleError (MKeyHelp {| dir := lit "/opt/getRates"; base := "api_key.txt" |})],
       Ok tt)
  ∧ requests (run sample_runtime
       (sample_world 1700000001000 (ReadOk bare_text) (ReadFail 34) rates_text)).1
    = 0%nat.
Proof. repeat split; reflexivity. Qed.

(** * Further properties of the program *)

(** ** The API key *)

Lemma trim_start_white pre s :
  Forall (λ c, is_white_space c = true) pre → trim_start (pre ++ s) = trim_start s.
Proof.
  induction 1 as [|c pre Hc _ IH]; [reflexivity|]. simpl. rewrite Hc. exact IH.
Qed.

Lemma trim_start_stops s :
  (∀ c, head s = Some c → is_white_space c = false) → trim_start s = s.
Proof.
  destruct s as [|c s]; [reflexivity|]. intros H. simpl.
  rewrite (H c eq_refl). reflexivity.
Qed.

Lemma head_rev_last (s : jsstring) : head (rev s) = last s.
Proof.
  induction s as [|c s _] using rev_ind; [reflexivity|].
  rewrite rev_app_distr, last_snoc. reflexivity.
Qed.

(** [trim] removes the white space around a text that neither begins nor
    ends with white space, and nothing else. *)
Lemma trim_strips pre key post :
  Forall (λ c, is_white_space c = true) pre →
  Forall (λ c, is_white_space c = true) post →
  (∀ c, head key = Some c → is_white_space c = false) →
  (∀ c, last key = Some c → is_white_space c = false) →
  trim (pre ++ key ++ post) = key.
Proof.
  intros Hpre Hpost Hfirst Hlast. unfold trim.
  rewrite trim_start_white by assumption.
  destruct key as [|c key].
  - simpl. replace (trim_start post) with (@nil N); [reflexivity|].
    rewrite <- (app_nil_r post), trim_start_white by assumption. reflexivity.
  - rewrite (trim_start_stops ((c :: key) ++ post))
      by (intros c' Hc'; apply Hfirst; exact Hc').
    rewrite rev_app_distr, trim_start_white
      by (apply Forall_rev; assumption).
    rewrite trim_start_stops; [apply rev_involutive|].
    intros c' Hc'. apply Hlast. rewrite <- head_rev_last. exact Hc'.
Qed.

(** X1: a key file that holds a 32-character key between white space and
    line breaks is accepted, and the request that follows carries exactly
    the key: host [openexchangerates.org], path
    [/api/latest.json?app_id=<key>]. *)
Theorem key_between_white_space_is_sent rt w pre key post :
  keyFile w = ReadOk (pre ++ key ++ post) →
  Forall (λ c, is_white_space c = true) pre →
  Forall (λ c, is_white_space c = true) post →
  (∀ c, head key = Some c → is_white_space c = false) →
  (∀ c, last key = Some c → is_white_space c = false) →
  length key = 32%nat →
  load_key w = ([], Ok (Some key))
  ∧ fetch_stage rt w = fetch rt w key
  ∧ head (fetch_stage rt w).1 = Some (request_for key).
Proof.
  intros Hk Hpre Hpost Hfirst Hlast Hlen.
  pose proof (trim_strips pre key post Hpre Hpost Hfirst Hlast) as Htrim.
  assert (Hload : load_key w = ([], Ok (Some key))).
  { rewrite (load_key_accepts w _ Hk) by congruence. rewrite Htrim. reflexivity. }
  assert (Hstage : fetch_stage rt w = fetch rt w key).
  { rewrite fetch_stage_unfold, Hload. destruct (fetch rt w key); reflexivity. }
  repeat split; auto.
  rewrite Hstage, fetch_unfold. destruct (response w); reflexivity.
Qed.

Lemma key_between_white_space_is_sent_witness :
  head (fetch_stage sample_runtime
          (sample_world 1700003600000 (ReadFail 34)
             (ReadOk ([32%N; 9%N] ++ key32 ++ [13%N; 10%N])) rates_text)).1
  = Some (request_for key32).
Proof.
  apply (key_between_white_space_is_sent sample_runtime
           (sample_world 1700003600000 (ReadFail 34)
              (ReadOk ([32%N; 9%N] ++ key32 ++ [13%N; 10%N])) rates_text)
           [32%N; 9%N] key32 [13%N; 10%N]); try reflexivity.
  - repeat constructor.
  - repeat constructor.
  - intros c Hc. injection Hc as <-. reflexivity.
  - intros c Hc. vm_compute in Hc. injection Hc as <-. reflexivity.
Defined.

(** ** What a run can do at most *)

Lemma getProp_throws v k e : getProp v k = Throw e → e = TypeError.
Proof. destruct v; simpl; congruence. Qed.

Lemma elementToString_array rt l :
  elementToString rt (JArr l) = joinElements rt l.
Proof. reflexivity. Qed.

Lemma joinElements_cons rt v v' l :
  joinElements rt (v :: v' :: l) =
    match elementToString rt v, joinElements rt (v' :: l) with
    | Ok s, Ok s' => Ok (s ++ lit "," ++ s')
    | Throw e, _ => Throw e
    | _, Throw e => Throw e
    end.
Proof. reflexivity. Qed.

Lemma elementToString_throws rt :
  ∀ v e, elementToString rt v = Throw e → e = TypeError.
Proof.
  fix IH 1. intros [| |b|x|s|l|m] e.
  - discriminate.
  - discriminate.
  - destruct b; discriminate.
  - discriminate.
  - discriminate.
  - rewrite elementToString_array. revert e.
    induction l as [|v l IHl]; intros e; [discriminate|].
    destruct l as [|v' l'].
    + apply (IH v).
    + rewrite joinElements_cons.
      destruct (elementToString rt v) as [sv|ev] eqn:Hv.
      * destruct (joinElements rt (v' :: l')) as [sl|el] eqn:Hl; [discriminate|].
        intros H. injection H as <-. apply IHl. reflexivity.
      * intros H. injection H as <-. apply (IH v). exact Hv.
  - simpl. destruct (bool_decide _); congruence.
Qed.

Lemma ToNumber_throws rt v e : ToNumber rt v = Throw e → e = TypeError.
Proof.
  destruct v as [| |b|x|s|l|m].
  - discriminate.
  - discriminate.
  - destruct b; discriminate.
  - discriminate.
  - discriminate.
  - unfold ToNumber, mbind, res_bind.
    destruct (elementToString rt (JArr l)) as [s|e'] eqn:Hs; [discriminate|].
    intros H. injection H as <-. eapply elementToString_throws, Hs.
  - simpl. destruct (bool_decide _); congruence.
Qed.

Lemma has_rates_throws obj e : has_rates obj = Throw e → e = TypeError.
Proof.
  unfold has_rates. unfold_prog.
  destruct (getProp obj "rates") as [rates|e1] eqn:H1;
    [|intros H; injection H as <-; eapply getProp_throws, H1].
  destruct (truthy rates); [|discriminate].
  destruct (getProp rates "AUD") as [aud|e2] eqn:H2;
    [|intros H; injection H as <-; eapply getProp_throws, H2].
  destruct (truthy aud); [|discriminate].
  destruct (getProp rates "EUR") as [eur|e3] eqn:H3;
    [discriminate | intros H; injection H as <-; eapply getProp_throws, H3].
Qed.

(** The ways [showResult] can end: every step that can throw comes before
    its one [console.log]. *)
Lemma showResult_outcomes rt obj :
  (∃ s, showResult rt obj = ([ConsoleLog (MSummary s)], Ok tt))
  ∨ showResult rt obj = ([], Throw (Error "Rates missing from data!"))
  ∨ showResult rt obj = ([], Throw TypeError).
Proof.
  unfold showResult. unfold_prog.
  destruct (has_rates obj) as [[|]|e] eqn:Hr; simpl; auto;
    [|apply has_rates_throws in Hr; subst; auto].
  destruct (getProp obj "rates") as [rates|e] eqn:H1; simpl;
    [|apply getProp_throws in H1; subst; auto].
  destruct (getProp rates "AUD") as [aud|e] eqn:H2; simpl;
    [|apply getProp_throws in H2; subst; auto].
  destruct (getProp rates "EUR") as [eur|e] eqn:H3; simpl;
    [|apply getProp_throws in H3; subst; auto].
  destruct (ToNumber rt aud) as [a|e] eqn:H4; simpl;
    [|apply ToNumber_throws in H4; subst; auto].
  destruct (ToNumber rt eur) as [b|e] eqn:H5; simpl;
    [|apply ToNumber_throws in H5; subst; auto].
  destruct (getProp obj "timestamp") as [ts|e] eqn:H6; simpl;
    [|apply getProp_throws in H6; subst; auto].
  destruct (ToNumber rt ts) as [t|e] eqn:H7; simpl;
    [|apply ToNumber_throws in H7; subst; auto].
  left. eexists. reflexivity.
Qed.

(** X2: [showResult] is all or nothing.  It prints exactly one summary and
    returns, or it throws before printing anything, and then the exception is
    the "Rates missing from data!" error or a [TypeError]. *)
Theorem showResult_all_or_nothing rt obj :
  (∃ s, showResult rt obj = ([ConsoleLog (MSummary s)], Ok tt))
  ∨ showResult rt obj = ([], Throw (Error "Rates missing from data!"))
  ∨ showResult rt obj = ([], Throw TypeError).
Proof.
  destruct (showResult_outcomes rt obj) as [[s Hs] | [Hthrow | Hthrow]].
  - left. exists s. exact Hs.
  - right. left. exact Hthrow.
  - right. right. exact Hthrow.
Qed.

(** The four ways the cache stage can end. *)
Lemma from_cache_cases rt w :
  (∃ s, from_cache rt w = ([ConsoleLog (MSummary s)], Ok true))
  ∨ from_cache rt w = ([], Ok false)
  ∨ (∃ e, from_cache rt w = ([ConsoleLog (MExn e)], Ok false))
  ∨ from_cache rt w = ([ConsoleLog (MText "Cached data file missing...")], Ok false).
Proof.
  unfold from_cache.
  set (handler := λ err : exn, _).
  assert (Hthrow : ∀ e,
    (∃ e', try_catch (throw e) handler = ([ConsoleLog (MExn e')], Ok false))
    ∨ try_catch (throw e) handler
      = ([ConsoleLog (MText "Cached data file missing...")], Ok false)).
  { intros e. unfold try_catch, throw, handler. unfold_prog.
    destruct (bool_decide _); [right | left; eexists]; reflexivity. }
  unfold_prog. fold (@throw bool).
  destruct (readFileSync (cacheFile w)) as [text|e]; [|auto].
  destruct (parse rt text) as [obj|e]; [|auto].
  destruct (getProp obj "timestamp") as [ts|e]; [|auto].
  destruct (ToNumber rt ts) as [t|e]; [|auto].
  destruct (still_fresh w t); [|auto].
  change (showResult rt obj ≫= λ _, mret true) with
    (let '(t, r) := showResult rt obj in
     match r with
     | Ok a => let '(t', r') := (([], Ok true) : prog bool) in (t ++ t', r')
     | Throw e => (t, Throw e)
     end).
  destruct (showResult_shape rt obj) as [[e ->] | [s ->]]; [auto|].
  left. eexists. reflexivity.
Qed.

(** What the ['end'] handler leaves after the cache write. *)
Lemma on_end_cases rt w body :
  ∃ t r, on_end rt w body = (WriteFile (currentRatesJSON w) body :: t, r)
    ∧ ((r = Ok tt ∧ ((∃ obj, t = [ConsoleError (MValue obj)])
                     ∨ (∃ s, t = [ConsoleLog (MSummary s)])))
       ∨ (t = [] ∧ (r = Throw SyntaxError ∨ r = Throw TypeError
                    ∨ r = Throw (Error "Rates missing from data!")))).
Proof.
  rewrite on_end_unfold.
  destruct (JSON_parse rt body) as [obj|]; [|eexists _, _; split; [reflexivity|]; auto].
  destruct (getProp obj "error") as [err|e] eqn:He.
  - destruct (truthy err).
    + eexists _, _; split; [reflexivity|]. left. split; [reflexivity|]. left. eauto.
    + destruct (showResult_outcomes rt obj) as [[s ->] | [-> | ->]];
        eexists _, _; (split; [reflexivity|]); cbn [fst snd]; eauto 6.
  - apply getProp_throws in He. subst.
    eexists _, _; split; [reflexivity|]; auto.
Qed.

(** X3: a run never retries and never prints twice: it issues at most one
    HTTP request and prints at most one rate summary; a summary printed from
    the cache comes with no request at all. *)
Theorem run_at_most_one_request_and_summary rt w :
  (requests (run rt w).1 <= 1)%nat
  ∧ (length (summaries (run rt w).1) <= 1)%nat
  ∧ (∀ s, from_cache rt w = ([ConsoleLog (MSummary s)], Ok true) →
          run rt w = ([ConsoleLog (MSummary s)], Ok tt)).
Proof.
  assert (Hstage : (requests (fetch_stage rt w).1 <= 1)%nat
                   ∧ (length (summaries (fetch_stage rt w).1) <= 1)%nat).
  { rewrite fetch_stage_unfold.
    destruct (load_key_shape w) as [[apiKey ->] | ->];
      [|unfold requests, summaries; simpl; lia].
    pose proof (fetch_requests rt w apiKey) as Hreq.
    assert (Hsum : (length (summaries (fetch rt w apiKey).1) <= 1)%nat).
    { rewrite fetch_unfold.
      destruct (response w) as [chunks|]; [|unfold summaries; simpl; lia].
      destruct (on_end_cases rt w (received chunks)) as (t & r & -> & Hcase).
      cbn [fst snd].
      destruct Hcase as [[-> [[obj ->] | [s ->]]] | [-> [-> | [-> | ->]]]];
        unfold write_done, summaries; destruct (writeError w); simpl; lia. }
    destruct (fetch rt w apiKey) as [t' r']. cbn [fst app] in *. split; lia. }
  destruct Hstage as [Hreq Hsum].
  rewrite run_unfold.
  destruct (from_cache_cases rt w) as [[s Hc] | [Hc | [[e Hc] | Hc]]];
    rewrite Hc; destruct (fetch_stage rt w) as [t' r']; cbn [fst snd] in *.
  - repeat split; unfold requests, summaries; simpl; try lia.
    intros s' Hs'. congruence.
  - repeat split; try assumption. intros s' Hs'. discriminate Hs'.
  - repeat split; try assumption. intros s' Hs'. discriminate Hs'.
  - repeat split; try assumption. intros s' Hs'. discriminate Hs'.
Qed.

(** X4: the two [try] blocks catch whatever is thrown inside them.  The
    cache stage (reading, parsing, the freshness test, [showResult]) and the
    key stage never end with an exception, whatever the file system and
    [JSON.parse] do.  So a run that ends with an exception had its cache not
    served and its key accepted, and the exception is the one of the request
    stage. *)
Theorem failures_come_from_the_request_stage rt w :
  (∃ t served, from_cache rt w = (t, Ok served))
  ∧ (∃ t key, load_key w = (t, Ok key))
  ∧ (∀ x, (run rt w).2 = Throw x →
          ∃ t apiKey,
            from_cache rt w = (t, Ok false)
            ∧ load_key w = ([], Ok (Some apiKey))
            ∧ (fetch rt w apiKey).2 = Throw x).
Proof.
  split; [|split].
  - destruct (from_cache_cases rt w) as [[s Hc] | [Hc | [[e Hc] | Hc]]];
      rewrite Hc; eauto.
  - destruct (load_key_shape w) as [[apiKey Hk] | Hk]; rewrite Hk; eauto.
  - intros x. rewrite run_unfold, fetch_stage_unfold.
    destruct (from_cache_cases rt w) as [[s Hc] | [Hc | [[e Hc] | Hc]]];
      rewrite Hc; [discriminate| | |];
      (destruct (load_key_shape w) as [[apiKey Hk] | Hk]; rewrite Hk;
       [|discriminate]);
      destruct (fetch rt w apiKey) as [t' r'] eqn:Hf; cbn [fst snd];
      intros ->; eexists _, apiKey; rewrite Hf; repeat split; reflexivity.
Qed.

(** ** The response body and the cache file *)

Lemma received_concat chunks : received chunks = concat chunks.
Proof.
  unfold received.
  assert (H : ∀ acc, foldl (λ acc chunk : jsstring, acc ++ chunk) acc chunks
                     = acc ++ concat chunks); [|apply (H [])].
  induction chunks as [|c chunks IH]; intros acc; simpl.
  - symmetry. apply app_nil_r.
  - rewrite IH, <- app_assoc. reflexivity.
Qed.

(** X5: the ['end'] handler hands the body to [fs.writeFile] before it looks
    at it.  For every response, the fetch calls [fs.writeFile] once, with the
    path of the cache file and the text accumulated from the chunks in order,
    right after the line "Fetching new currency exchange data:" and before
    [JSON.parse]; it is the only such call.  When the text is not JSON the
    call has been made all the same, nothing else is printed, and the fetch
    ends with the [SyntaxError].  Whether the write then completes is left to
    the file system: the statement is about the call. *)
Theorem body_goes_to_writeFile_unparsed rt w apiKey chunks :
  response w = Some chunks →
  ∃ rest,
    (fetch rt w apiKey).1
    = request_for apiKey
      :: ConsoleLog (MText "Fetching new currency exchange data:")
      :: WriteFile (currentRatesJSON w) (concat chunks) :: rest
    ∧ (∀ file data, WriteFile file data ∉ rest)
    ∧ (JSON_parse rt (concat chunks) = None →
       rest = [] ∧ (fetch rt w apiKey).2 = Throw SyntaxError).
Proof.
  intros Hr. rewrite fetch_unfold, Hr, received_concat.
  destruct (on_end_cases rt w (concat chunks)) as (t & r & Hon & Hcase).
  rewrite on_end_unfold in Hon.
  destruct (JSON_parse rt (concat chunks)) as [obj|] eqn:Hp.
  - rewrite on_end_unfold, Hp, Hon. cbn [fst snd].
    eexists. split; [reflexivity|]. split; [|discriminate].
    intros file data Hin. apply elem_of_app in Hin.
    destruct Hcase as [[-> [[o ->] | [s ->]]] | [-> [-> | [-> | ->]]]];
      unfold write_done in Hin; destruct (writeError w);
      destruct Hin as [Hin | Hin];
      repeat (apply elem_of_cons in Hin as [Hin | Hin]; [discriminate Hin|]);
      inversion Hin.
  - rewrite on_end_unfold, Hp. cbn [fst snd].
    exists []. split; [reflexivity|]. split; [|auto].
    intros file data Hin. inversion Hin.
Qed.

Lemma body_goes_to_writeFile_unparsed_witness :
  ∃ rest,
    (fetch sample_runtime
       (with_response
          (sample_world 1700003600000 (ReadFail 34) (ReadOk key32) [])
          [lit "<html>"; lit "busy"; lit "</html>"]) key32).1
    = request_for key32
      :: ConsoleLog (MText "Fetching new currency exchange data:")
      :: WriteFile {| dir := lit "/opt/getRates"; base := "currentRates.json" |}
           (lit "<html>busy</html>") :: rest.
Proof.
  destruct (body_goes_to_writeFile_unparsed sample_runtime
              (with_response
                 (sample_world 1700003600000 (ReadFail 34) (ReadOk key32) [])
                 [lit "<html>"; lit "busy"; lit "</html>"])
              key32 [lit "<html>"; lit "busy"; lit "</html>"] eq_refl)
    as (rest & H & _).
  exists rest. exact H.
Defined.

(** ** Cache files that cannot be used *)

(** X7: a cache file that cannot be read or understood never stops the
    program: the failure is logged with one line and the run continues with
    the key and the request.  A missing file (errno 34) gets the line
    "Cached data file missing..."; any other read error, text that is not
    JSON, and the JSON text [null] get the error itself. *)
Theorem unusable_cache_is_logged rt w :
  (∀ n, cacheFile w = ReadFail n →
        run rt w =
          (ConsoleLog (if bool_decide (n = 34)
                       then MText "Cached data file missing..."
                       else MExn (FsError n))
           :: (fetch_stage rt w).1, (fetch_stage rt w).2))
  ∧ (∀ text, cacheFile w = ReadOk text → JSON_parse rt text = None →
        run rt w =
          (ConsoleLog (MExn SyntaxError) :: (fetch_stage rt w).1, (fetch_stage rt w).2))
  ∧ (∀ text, cacheFile w = ReadOk text → JSON_parse rt text = Some JNull →
        run rt w =
          (ConsoleLog (MExn TypeError) :: (fetch_stage rt w).1, (fetch_stage rt w).2)).
Proof.
  split; [|split].
  - intros n Hc. rewrite run_unfold, (from_cache_absent rt w n Hc).
    destruct (fetch_stage rt w); reflexivity.
  - intros text Hc Hp. rewrite run_unfold, (from_cache_unparsable rt w text Hc Hp).
    destruct (fetch_stage rt w); reflexivity.
  - intros text Hc Hp. rewrite run_unfold.
    assert (from_cache rt w = ([ConsoleLog (MExn TypeError)], Ok false)) as ->.
    { unfold from_cache. rewrite Hc. unfold_prog. cbn [readFileSync].
      unfold parse. rewrite Hp. reflexivity. }
    destruct (fetch_stage rt w); reflexivity.
Qed.

Lemma Prim2SF_nan : Prim2SF nan = S754_nan.
Proof. reflexivity. Qed.

Lemma still_fresh_nan w : still_fresh w nan = false.
Proof.
  unfold still_fresh. rewrite ltb_spec.
  change (nan * 1000)%float with nan. rewrite Prim2SF_nan.
  unfold SFltb, SFcompare. destruct (Prim2SF _); reflexivity.
Qed.

(** X8: a snapshot without a [timestamp] is handled differently by origin.
    Found in the cache, it counts as stale without a word: the run is just
    the key and the request, even if its rates are fine.  Received as the
    response, it is presented, under an invalid date. *)
Theorem snapshot_without_timestamp rt w m r a e :
  m !! lit "timestamp" = None →
  m !! lit "rates" = Some (JObj r) →
  r !! lit "AUD" = Some (JNum a) → r !! lit "EUR" = Some (JNum e) →
  truthy (JNum a) = true → truthy (JNum e) = true →
  (∀ text, cacheFile w = ReadOk text → JSON_parse rt text = Some (JObj m) →
           run rt w = fetch_stage rt w)
  ∧ (∀ body, JSON_parse rt body = Some (JObj m) →
             truthy (default JUndefined (m !! lit "error")) = false →
             ∃ c1 c2 n1 n2,
               on_end rt w body =
                 ([WriteFile (currentRatesJSON w) body;
                   ConsoleLog (MSummary {| lastUpdated := None;
                                           eurAud := (c1, n1);
                                           audEur := (c2, n2) |})],
                  Ok tt)).
Proof.
  intros Hts Hr Ha He Hta Hte. split.
  - intros text Hc Hp. rewrite run_unfold.
    rewrite (from_cache_stale rt w text (JObj m) JUndefined nan Hc Hp).
    + destruct (fetch_stage rt w); reflexivity.
    + unfold getProp. rewrite Hts. reflexivity.
    + reflexivity.
    + apply still_fresh_nan.
  - intros body Hp Herr. rewrite on_end_unfold, Hp. unfold getProp at 1.
    rewrite Herr.
    rewrite (showResult_numbers rt m r a e nan Hr Ha He Hta Hte)
      by (rewrite Hts; reflexivity).
    do 4 eexists. reflexivity.
Qed.

Lemma snapshot_without_timestamp_witness :
  run undated_runtime
    (sample_world 1700000001000 (ReadOk undated_text) (ReadOk key32) undated_text)
  = fetch_stage undated_runtime
      (sample_world 1700000001000 (ReadOk undated_text) (ReadOk key32) undated_text)
  ∧ ∃ c1 c2 n1 n2,
      on_end undated_runtime
        (sample_world 1700000001000 (ReadOk undated_text) (ReadOk key32) undated_text)
        undated_text
      = ([WriteFile {| dir := lit "/opt/getRates"; base := "currentRates.json" |}
            undated_text;
          ConsoleLog (MSummary {| lastUpdated := None;
                                  eurAud := (c1, n1);
                                  audEur := (c2, n2) |})],
         Ok tt).
Proof.
  destruct (snapshot_without_timestamp undated_runtime
              (sample_world 1700000001000 (ReadOk undated_text) (ReadOk key32) undated_text)
              undated (<[lit "AUD" := JNum 1.5]> (<[lit "EUR" := JNum 1]> ∅)) 1.5 1
              eq_refl eq_refl eq_refl eq_refl eq_refl eq_refl) as [H1 H2].
  split.
  - apply (H1 undated_text); reflexivity.
  - apply (H2 undated_text); reflexivity.
Defined.

(** ** What the summary shows *)

(** X9: the rates guard does not keep an infinite value out of the output.
    When the quotient of two truthy rates is a zero (of either sign, as when
    it underflows), the program prints 0.0000, not highlighted, for AUD per
    EUR, and for EUR per AUD [Infinity], highlighted, after [+0], or
    [-Infinity], not highlighted, after [-0].  When the quotient is infinite,
    it prints [Infinity], highlighted, or [-Infinity], not highlighted, for
    AUD per EUR, and 0.0000, not highlighted, for EUR per AUD. *)
Theorem extreme_rates_print_infinity rt t a e s :
  truthy (JNum a) = true → truthy (JNum e) = true →
  (Prim2SF (a / e) = S754_zero s →
   showResult rt (snapshot t a e) =
     ([ConsoleLog (MSummary {|
         lastUpdated := newDate (t * 1000);
         eurAud := (magenta, Fixed false 0);
         audEur := (pick_colour (negb s),
                    Plain (if s then neg_infinity else infinity)) |})],
      Ok tt))
  ∧ (Prim2SF (a / e) = S754_infinity s →
     showResult rt (snapshot t a e) =
       ([ConsoleLog (MSummary {|
           lastUpdated := newDate (t * 1000);
           eurAud := (pick_colour (negb s),
                      Plain (if s then neg_infinity else infinity));
           audEur := (magenta, Fixed false 0) |})],
        Ok tt)).
Proof.
  intros Ha He. split; intros Hq.
  - assert (E : (a / e)%float = if s then (-0)%float else 0%float).
    { rewrite <- (SF2Prim_Prim2SF (a / e)), Hq. destruct s; reflexivity. }
    rewrite showResult_snapshot, E by assumption. destruct s; reflexivity.
  - assert (E : (a / e)%float = if s then neg_infinity else infinity).
    { rewrite <- (SF2Prim_Prim2SF (a / e)), Hq. destruct s; reflexivity. }
    rewrite showResult_snapshot, E by assumption. destruct s; reflexivity.
Qed.

Lemma extreme_rates_print_infinity_witness :
  showResult sample_runtime (snapshot 1700000000 1e-200 1e200) =
    ([ConsoleLog (MSummary {|
        lastUpdated := Some 1700000000000;
        eurAud := (magenta, Fixed false 0);
        audEur := (green_blink, Plain infinity) |})],
     Ok tt)
  ∧ showResult sample_runtime (snapshot 1700000000 (-1e-200) 1e200) =
      ([ConsoleLog (MSummary {|
          lastUpdated := Some 1700000000000;
          eurAud := (magenta, Fixed false 0);
          audEur := (magenta, Plain neg_infinity) |})],
       Ok tt)
  ∧ showResult sample_runtime (snapshot 1700000000 1e200 1e-200) =
      ([ConsoleLog (MSummary {|
          lastUpdated := Some 1700000000000;
          eurAud := (green_blink, Plain infinity);
          audEur := (magenta, Fixed false 0) |})],
       Ok tt)
  ∧ showResult sample_runtime (snapshot 1700000000 (-1e200) 1e-200) =
      ([ConsoleLog (MSummary {|
          lastUpdated := Some 1700000000000;
          eurAud := (magenta, Plain neg_infinity);
          audEur := (magenta, Fixed false 0) |})],
       Ok tt).
Proof.
  split; [|split; [|split]].
  - apply (proj1 (extreme_rates_print_infinity sample_runtime 1700000000
                    1e-200 1e200 false eq_refl eq_refl)). reflexivity.
  - apply (proj1 (extreme_rates_print_infinity sample_runtime 1700000000
                    (-1e-200) 1e200 true eq_refl eq_refl)). reflexivity.
  - apply (proj2 (extreme_rates_print_infinity sample_runtime 1700000000
                    1e200 1e-200 false eq_refl eq_refl)). reflexivity.
  - apply (proj2 (extreme_rates_print_infinity sample_runtime 1700000000
                    (-1e200) 1e-200 true eq_refl eq_refl)). reflexivity.
Defined.

(** The time value of [new Date(t * 1000)] for a timestamp of [t] seconds. *)
Lemma newDate_seconds t :
  0 < t → 1000 * t < 2 ^ 53 →
  newDate (Z2F t * 1000) =
    if 1000 * t <=? 8640000000000000 then Some (1000 * t) else None.
Proof.
  intros Ht Ht'. unfold newDate, Ftrunc.
  rewrite mul_spec, Prim2SF_Z2F by lia.
  change (Prim2SF 1000%float) with (nform false 1000).
  unfold SF64mul. rewrite SFmul_int by lia.
  assert (Hz : 0 < t * 1000 < 2 ^ 53) by lia.
  pose proof (log2_lt_53 _ Hz) as Hl.
  unfold nform. rewrite nform_mantissa by lia. unfold cond_Zopp.
  assert (Hv : (if 0 <=? Z.log2 (t * 1000) - 52
                then t * 1000 * 2 ^ (52 - Z.log2 (t * 1000)) * 2 ^ (Z.log2 (t * 1000) - 52)
                else t * 1000 * 2 ^ (52 - Z.log2 (t * 1000))
                     / 2 ^ (- (Z.log2 (t * 1000) - 52)))
               = t * 1000).
  { destruct (Z.leb_spec 0 (Z.log2 (t * 1000) - 52)).
    - replace (Z.log2 (t * 1000)) with 52 by lia. simpl. lia.
    - replace (- (Z.log2 (t * 1000) - 52)) with (52 - Z.log2 (t * 1000)) by lia.
      apply Z.div_mul. apply Z.pow_nonzero; lia. }
  rewrite Hv. cbn [mbind option_bind].
  rewrite Z.abs_eq by lia. replace (t * 1000) with (1000 * t) by lia.
  reflexivity.
Qed.

(** X10: the date in the header is the snapshot's [timestamp]: for a
    timestamp of [t] seconds, the [Date] printed holds [1000 * t]
    milliseconds, as long as that is within the range of a [Date]
    (8.64e15 ms); beyond it the date is invalid. *)
Theorem header_shows_the_timestamp rt t a e :
  truthy (JNum a) = true → truthy (JNum e) = true →
  0 < t → 1000 * t < 2 ^ 53 →
  ∃ rateEurAud rateAudEur,
    showResult rt (snapshot (Z2F t) a e) =
      ([ConsoleLog (MSummary {|
          lastUpdated := if 1000 * t <=? 8640000000000000
                         then Some (1000 * t) else None;
          eurAud := rateEurAud;
          audEur := rateAudEur |})],
       Ok tt).
Proof.
  intros Ha He Ht Ht'.
  rewrite showResult_snapshot, newDate_seconds by assumption.
  do 2 eexists. reflexivity.
Qed.

Lemma header_shows_the_timestamp_witness :
  ∃ rateEurAud rateAudEur,
    showResult sample_runtime (snapshot (Z2F 1700000000) 1.5 1) =
      ([ConsoleLog (MSummary {|
          lastUpdated := Some 1700000000000;
          eurAud := rateEurAud;
          audEur := rateAudEur |})],
       Ok tt).
Proof.
  apply (header_shows_the_timestamp sample_runtime 1700000000 1.5 1);
    try reflexivity; lia.
Defined.

(** ** The highlight rule, read on the printed text

    [showResult] compares the texts of [toFixed(4)] with 1.5 and 0.7, so each
    text is read back as the binary64 value nearest to [n / 10^4].  The lemmas
    below bound that rounding and show that it never moves a reading across
    either threshold. *)

Lemma shr_1_half mrs :
  0 <= shr_m mrs → shr_m (shr_1 mrs) = shr_m mrs / 2 ∧ 0 <= shr_m (shr_1 mrs).
Proof.
  destruct mrs as [m r s]. cbn [shr_m]. intros H.
  destruct m as [|[p|p|]|p]; cbn [shr_1 shr_m]; try lia.
  - split; [reflexivity | lia].
  - split; [|lia]. apply Z.div_unique with (r := 1); lia.
  - split; [|lia]. apply Z.div_unique with (r := 0); lia.
  - split; [reflexivity | lia].
Qed.

Lemma iter_shr_m p mrs :
  0 <= shr_m mrs →
  shr_m (SpecFloat.iter_pos shr_1 p mrs) = shr_m mrs / 2 ^ Z.pos p.
Proof.
  intros H. rewrite iter_pos_iter.
  assert (G : shr_m (Pos.iter shr_1 mrs p) = shr_m mrs / 2 ^ Z.pos p
              ∧ 0 <= shr_m (Pos.iter shr_1 mrs p)); [|apply G].
  induction p using Pos.peano_ind.
  - simpl. change (2 ^ 1) with 2. apply shr_1_half, H.
  - rewrite Pos.iter_succ. destruct IHp as [IH1 IH2].
    destruct (shr_1_half _ IH2) as [E1 E2]. split; [|exact E2].
    rewrite E1, IH1, Pos2Z.inj_succ, Z.pow_succ_r, Z.div_div by lia.
    f_equal. lia.
Qed.

Lemma shr_m_shift m l e k :
  0 <= m → 0 <= k →
  shr_m (shr (shr_record_of_loc m l) e k).1 = m / 2 ^ k
  ∧ (shr (shr_record_of_loc m l) e k).2 = e + k.
Proof.
  intros Hm Hk. destruct k as [|p|p]; try lia; simpl.
  - rewrite (proj1 (loc_record_roundtrip m l)), Z.div_1_r. split; [reflexivity | lia].
  - change (Z.pow_pos 2 p) with (2 ^ Z.pos p).
    rewrite iter_shr_m, (proj1 (loc_record_roundtrip m l)); [auto|].
    rewrite (proj1 (loc_record_roundtrip m l)). exact Hm.
Qed.

(** Rounding a mantissa of at least 53 bits: the result is a 53-bit mantissa,
    one of the two neighbours of [m / 2^k]. *)
Lemma binary_round_aux_general s m e l :
  2 ^ 52 <= m → -1074 <= e + (Z.log2 m - 52) → e + (Z.log2 m - 52) + 1 <= 971 →
  ∃ mr er, binary_round_aux prec emax s m e l = S754_finite s mr er
    ∧ 2 ^ 52 <= Z.pos mr < 2 ^ 53
    ∧ ((er = e + (Z.log2 m - 52)
        ∧ (Z.pos mr = m / 2 ^ (Z.log2 m - 52) ∨ Z.pos mr = m / 2 ^ (Z.log2 m - 52) + 1))
       ∨ (er = e + (Z.log2 m - 52) + 1 ∧ Z.pos mr = 2 ^ 52
          ∧ m / 2 ^ (Z.log2 m - 52) + 1 = 2 ^ 53)).
Proof.
  intros Hm He1 He2.
  assert (Hl : 52 <= Z.log2 m) by (apply Z.log2_le_pow2; lia).
  set (k := Z.log2 m - 52) in *.
  assert (Hq : 2 ^ 52 <= m / 2 ^ k < 2 ^ 53).
  { pose proof (Z.log2_spec m ltac:(lia)) as [L U].
    assert (Hp : 0 < 2 ^ k) by (apply Z.pow_pos_nonneg; lia).
    replace (Z.log2 m) with (k + 52) in L by (unfold k; lia).
    replace (Z.succ (Z.log2 m)) with (k + 53) in U by (unfold k; lia).
    rewrite Z.pow_add_r in L, U by lia. split.
    - apply Z.div_le_lower_bound; lia.
    - apply Z.div_lt_upper_bound; lia. }
  unfold binary_round_aux, shr_fexp.
  rewrite (Zdigits2_log2 m) by lia.
  replace (fexp prec emax (Z.log2 m + 1 + e) - e) with k
    by (unfold fexp, emin, prec, emax, k in *; lia).
  destruct (shr_m_shift m l e k ltac:(lia) ltac:(unfold k; lia)) as [E1 E2].
  destruct (shr (shr_record_of_loc m l) e k) as [mrs' e']. simpl in E1, E2. subst e'.
  destruct (round_nearest_even_cases (shr_m mrs') (loc_of_shr_record mrs')) as [-> | ->];
    rewrite E1.
  - assert (Hlq : Z.log2 (m / 2 ^ k) = 52).
    { apply Z.log2_unique; [lia|]. change (2 ^ Z.succ 52) with (2 ^ 53). lia. }
    rewrite (Zdigits2_log2 (m / 2 ^ k)), Hlq by lia.
    replace (fexp prec emax (52 + 1 + (e + k)) - (e + k)) with 0
      by (unfold fexp, emin, prec, emax in *; lia).
    simpl. destruct (m / 2 ^ k) as [|mq|mq] eqn:Hmq; try lia.
    replace (e + k <=? emax - prec) with true
      by (symmetry; apply Z.leb_le; unfold emax, prec; lia).
    exists mq, (e + k). split; [reflexivity|]. split; [lia|]. left. split; [reflexivity|]. left; reflexivity.
  - destruct (Z.eq_dec (m / 2 ^ k + 1) (2 ^ 53)) as [Hov | Hnov].
    + rewrite Hov. change (Zdigits2 (2 ^ 53)) with 54.
      replace (fexp prec emax (54 + (e + k)) - (e + k)) with 1
        by (unfold fexp, emin, prec, emax in *; lia).
      simpl.
      replace (e + k + 1 <=? emax - prec) with true
        by (symmetry; apply Z.leb_le; unfold emax, prec; lia).
      exists 4503599627370496%positive, (e + k + 1). split; [reflexivity|].
      split; [simpl; lia|]. right. split; [reflexivity|]. split; [reflexivity|]. reflexivity.
    + assert (Hlq1 : Z.log2 (m / 2 ^ k + 1) = 52).
      { apply Z.log2_unique; [lia|]. change (2 ^ Z.succ 52) with (2 ^ 53). lia. }
      rewrite (Zdigits2_log2 (m / 2 ^ k + 1)), Hlq1 by lia.
      replace (fexp prec emax (52 + 1 + (e + k)) - (e + k)) with 0
        by (unfold fexp, emin, prec, emax in *; lia).
      simpl. destruct (m / 2 ^ k + 1) as [|mq|mq] eqn:Hmq; try lia.
      replace (e + k <=? emax - prec) with true
        by (symmetry; apply Z.leb_le; unfold emax, prec; lia).
      exists mq, (e + k). split; [reflexivity|]. split; [lia|]. left. split; [reflexivity|]. right. lia.
Qed.

Lemma scaled_lt a b x y c :
  0 < x → 2 <= y → 0 < c → a < 2 * c → c <= b → a * x < b * (x * y).
Proof.
  intros Hx Hy Hc Ha Hb.
  assert (2 * c <= b * y) by nia.
  assert (a * x < 2 * c * x) by (apply Z.mul_lt_mono_pos_r; lia).
  assert (2 * c * x <= b * y * x) by (apply Z.mul_le_mono_nonneg_r; lia).
  replace (b * (x * y)) with (b * y * x) by ring. lia.
Qed.

(** Comparison of two positive binary64 data with 53-bit mantissas, at the
    common scale 2^-66. *)
Lemma SFltb_canonical m1 e1 m2 e2 :
  2 ^ 52 <= Z.pos m1 < 2 ^ 53 → 2 ^ 52 <= Z.pos m2 < 2 ^ 53 →
  -66 <= e1 → -66 <= e2 →
  SFltb (S754_finite false m1 e1) (S754_finite false m2 e2)
  = (Z.pos m1 * 2 ^ (e1 + 66) <? Z.pos m2 * 2 ^ (e2 + 66)).
Proof.
  intros H1 H2 He1 He2. unfold SFltb, SFcompare.
  assert (P1 : 0 < 2 ^ (e1 + 66)) by (apply Z.pow_pos_nonneg; lia).
  assert (P2 : 0 < 2 ^ (e2 + 66)) by (apply Z.pow_pos_nonneg; lia).
  destruct (Z.compare_spec e1 e2) as [E | E | E].
  - subst e2. rewrite compare_cont_Z.
    destruct (Z.compare_spec (Z.pos m1) (Z.pos m2)) as [E' | E' | E'];
      symmetry; [apply Z.ltb_ge | apply Z.ltb_lt | apply Z.ltb_ge].
    + rewrite E'. apply Z.le_refl.
    + apply Z.mul_lt_mono_pos_r; assumption.
    + apply Z.mul_le_mono_nonneg_r; lia.
  - symmetry. apply Z.ltb_lt.
    replace (e2 + 66) with ((e1 + 66) + (e2 - e1)) by lia.
    rewrite (Z.pow_add_r 2 (e1 + 66) (e2 - e1)) by lia.
    assert (HY : 2 ^ 1 <= 2 ^ (e2 - e1)) by (apply Z.pow_le_mono_r; lia).
    change (2 ^ 1) with 2 in HY.
    apply (scaled_lt (Z.pos m1) (Z.pos m2) (2 ^ (e1 + 66)) (2 ^ (e2 - e1)) (2 ^ 52));
      try lia; change (2 * 2 ^ 52) with (2 ^ 53); lia.
  - symmetry. apply Z.ltb_ge.
    replace (e1 + 66) with ((e2 + 66) + (e1 - e2)) by lia.
    rewrite (Z.pow_add_r 2 (e2 + 66) (e1 - e2)) by lia.
    assert (HY : 2 ^ 1 <= 2 ^ (e1 - e2)) by (apply Z.pow_le_mono_r; lia).
    change (2 ^ 1) with 2 in HY.
    apply Z.lt_le_incl.
    apply (scaled_lt (Z.pos m2) (Z.pos m1) (2 ^ (e2 + 66)) (2 ^ (e1 - e2)) (2 ^ 52));
      try lia; change (2 * 2 ^ 52) with (2 ^ 53); lia.
Qed.

(** The correctly rounded quotient [p / 10^4], as [numstr_number] computes
    it: a 53-bit mantissa [mr] at exponent [er], within one unit [u] of the
    last place of the exact quotient (all in units of 2^-66). *)
Lemma SFdiv_decimal s p :
  Z.pos p < 10 ^ 25 →
  ∃ mr er u,
    SFdiv prec emax (S754_finite s p 0) (S754_finite false 10000 0)
    = S754_finite s mr er
    ∧ 2 ^ 52 <= Z.pos mr < 2 ^ 53 ∧ -66 <= er <= 20
    ∧ 0 < u ∧ 2 ^ 52 * u <= Z.pos mr * 2 ^ (er + 66)
    ∧ 10000 * (Z.pos mr * 2 ^ (er + 66) - u) <= Z.pos p * 2 ^ 66
      < 10000 * (Z.pos mr * 2 ^ (er + 66) + u).
Proof.
  intros Hp.
  assert (Hl84 : Z.log2 (Z.pos p) < 84).
  { apply Z.log2_lt_pow2; [lia|]. eapply Z.lt_trans; [exact Hp|]. reflexivity. }
  pose proof (Z.log2_nonneg (Z.pos p)) as Hl0.
  pose proof (Z.log2_spec (Z.pos p) ltac:(lia)) as [Lp Up].
  unfold SFdiv, SFdiv_core_binary.
  replace (xorb s false) with s by (destruct s; reflexivity).
  rewrite (Zdigits2_log2 (Z.pos p)) by lia.
  change (Zdigits2 (Z.pos 10000)) with 14.
  set (sh := Z.max (66 - Z.log2 (Z.pos p)) 0).
  replace (Z.min (fexp prec emax (Z.log2 (Z.pos p) + 1 + 0 - (14 + 0))) (0 - 0))
    with (- sh) by (unfold fexp, emin, prec, emax, sh; lia).
  replace (0 - 0 - - sh) with sh by lia.
  assert (Hsh : 0 <= sh <= 66) by (unfold sh; lia).
  assert (Hm' : match sh with
                | Z.pos _ => Z.shiftl (Z.pos p) sh
                | 0 => Z.pos p
                | Z.neg _ => 0
                end = Z.pos p * 2 ^ sh).
  { clearbody sh. destruct sh as [|q|q]; try lia.
    rewrite Z.shiftl_mul_pow2 by lia. reflexivity. }
  rewrite Hm'. clear Hm'.
  assert (Hps : 0 < 2 ^ sh) by (apply Z.pow_pos_nonneg; lia).
  assert (Hbig : 2 ^ 66 <= Z.pos p * 2 ^ sh).
  { destruct (Z.le_gt_cases 66 (Z.log2 (Z.pos p))) as [G | G].
    - assert (2 ^ 66 <= 2 ^ Z.log2 (Z.pos p)) by (apply Z.pow_le_mono_r; lia). nia.
    - replace 66 with (Z.log2 (Z.pos p) + sh) at 1 by (unfold sh; lia).
      rewrite Z.pow_add_r by lia. nia. }
  pose proof (Z_div_mod (Z.pos p * 2 ^ sh) 10000 ltac:(lia)) as Hdiv.
  destruct (Z.div_eucl (Z.pos p * 2 ^ sh) 10000) as [q r]. destruct Hdiv as [Hqr Hr].
  assert (Hq : 2 ^ 52 <= q) by lia.
  assert (Hlq : 52 <= Z.log2 q) by (apply Z.log2_le_pow2; lia).
  assert (Hqub : q < 2 ^ 71).
  { destruct (Z.le_gt_cases 66 (Z.log2 (Z.pos p))) as [G | G].
    - replace sh with 0 in * by (unfold sh; lia).
      assert (Z.pos p < 2 ^ 84) by (eapply Z.lt_trans; [exact Hp | reflexivity]). lia.
    - assert (Z.pos p * 2 ^ sh < 2 ^ 67).
      { replace 67 with (Z.succ (Z.log2 (Z.pos p)) + sh) by (unfold sh; lia).
        rewrite Z.pow_add_r by lia. nia. }
      lia. }
  assert (Hlq84 : Z.log2 q < 71) by (apply Z.log2_lt_pow2; lia).
  destruct (binary_round_aux_general s q (- sh) (new_location 10000 r))
    as (mr & er & Hres & Hmr & Her); [lia | lia | lia |].
  set (k := Z.log2 q - 52) in *.
  assert (Hk : 0 <= k <= 18) by (unfold k; lia).
  assert (Hpk : 0 < 2 ^ k) by (apply Z.pow_pos_nonneg; lia).
  pose proof (Z.div_mod q (2 ^ k) ltac:(lia)) as Hqk.
  pose proof (Z.mod_pos_bound q (2 ^ k) Hpk) as Hqr'.
  set (qk := q / 2 ^ k) in *. set (rk := q mod 2 ^ k) in *.
  assert (Hshk : sh <= k + 66) by lia.
  exists mr, er, (2 ^ (k + 66 - sh)).
  split; [exact Hres|]. split; [exact Hmr|].
  assert (Hu : 0 < 2 ^ (k + 66 - sh)) by (apply Z.pow_pos_nonneg; lia).
  assert (Hscale : 2 ^ 66 = 2 ^ sh * 2 ^ (66 - sh))
    by (rewrite <- Z.pow_add_r by lia; f_equal; lia).
  assert (Hu' : 2 ^ (k + 66 - sh) = 2 ^ k * 2 ^ (66 - sh))
    by (rewrite <- Z.pow_add_r by lia; f_equal; lia).
  assert (H66 : 0 < 2 ^ (66 - sh)) by (apply Z.pow_pos_nonneg; lia).
  assert (HM : ∃ M, Z.pos mr * 2 ^ (er + 66) = M * 2 ^ (k + 66 - sh)
                    ∧ 2 ^ 52 <= M ∧ qk <= M <= qk + 1 ∧ -66 <= er <= 20).
  { destruct Her as [[-> [E | E]] | (-> & E & E')].
    - exists (Z.pos mr). split; [do 2 f_equal; lia|]. lia.
    - exists (Z.pos mr). split; [do 2 f_equal; lia|]. lia.
    - exists (2 ^ 53). split; [|lia].
      rewrite E. replace (- sh + k + 1 + 66) with ((k + 66 - sh) + 1) by lia.
      rewrite Z.pow_add_r by lia. change (2 ^ 53) with (2 ^ 52 * 2 ^ 1). lia. }
  destruct HM as (M & HV & HM52 & HMq & Her').
  split; [exact Her'|]. split; [exact Hu|].
  rewrite HV. split; [apply Z.mul_le_mono_nonneg_r; lia|].
  rewrite Hscale, Hu'.
  assert (A1 : (M - 1) * 2 ^ k <= qk * 2 ^ k)
    by (apply Z.mul_le_mono_nonneg_r; lia).
  assert (A2 : (qk + 1) * 2 ^ k <= (M + 1) * 2 ^ k)
    by (apply Z.mul_le_mono_nonneg_r; lia).
  assert (B1 : (M - 1) * 2 ^ k * 10000 <= Z.pos p * 2 ^ sh) by lia.
  assert (B2 : Z.pos p * 2 ^ sh < (M + 1) * 2 ^ k * 10000) by lia.
  split.
  - replace (10000 * (M * (2 ^ k * 2 ^ (66 - sh)) - 2 ^ k * 2 ^ (66 - sh)))
      with ((M - 1) * 2 ^ k * 10000 * 2 ^ (66 - sh)) by ring.
    replace (Z.pos p * (2 ^ sh * 2 ^ (66 - sh)))
      with (Z.pos p * 2 ^ sh * 2 ^ (66 - sh)) by ring.
    apply Z.mul_le_mono_nonneg_r; lia.
  - replace (10000 * (M * (2 ^ k * 2 ^ (66 - sh)) + 2 ^ k * 2 ^ (66 - sh)))
      with ((M + 1) * 2 ^ k * 10000 * 2 ^ (66 - sh)) by ring.
    replace (Z.pos p * (2 ^ sh * 2 ^ (66 - sh)))
      with (Z.pos p * 2 ^ sh * 2 ^ (66 - sh)) by ring.
    apply Z.mul_lt_mono_pos_r; lia.
Qed.

Lemma numstr_number_spec s p :
  Z.pos p < 10 ^ 25 →
  ∃ mr er u,
    Prim2SF (numstr_number (Fixed s (Z.pos p))) = S754_finite s mr er
    ∧ 2 ^ 52 <= Z.pos mr < 2 ^ 53 ∧ -66 <= er <= 20
    ∧ 0 < u ∧ 2 ^ 52 * u <= Z.pos mr * 2 ^ (er + 66)
    ∧ 10000 * (Z.pos mr * 2 ^ (er + 66) - u) <= Z.pos p * 2 ^ 66
      < 10000 * (Z.pos mr * 2 ^ (er + 66) + u).
Proof.
  intros Hp. destruct (SFdiv_decimal s p Hp) as (mr & er & u & Hres & Hmr & Her & Hrest).
  exists mr, er, u. split; [|auto].
  unfold numstr_number. rewrite Hres. apply Prim2SF_SF2Prim.
  unfold valid_binary, bounded, canonical_mantissa.
  assert (Hl : Z.log2 (Z.pos mr) = 52).
  { apply Z.log2_unique; [lia|]. change (2 ^ Z.succ 52) with (2 ^ 53). lia. }
  rewrite digits2_log2, Hl. apply andb_true_intro. split.
  - apply Z.eqb_eq. unfold fexp, emin, prec, emax. lia.
  - apply Z.leb_le. unfold prec, emax. lia.
Qed.

(** Reading a printed text back and comparing it with a threshold [T * 2^eT]
    that is the binary64 value of [n0 / 10^4]: the reading is above the
    threshold exactly when the printed digits are above [n0]. *)
Lemma above_threshold p T eT n0 :
  Z.pos p < 10 ^ 25 →
  2 ^ 52 <= Z.pos T < 2 ^ 53 → -66 <= eT →
  10000 * (Z.pos T * 2 ^ (eT + 66)) * (2 ^ 52 + 1) < (n0 + 1) * 2 ^ 66 * 2 ^ 52 →
  (n0 - 1) * 2 ^ 66 * 2 ^ 52 < 10000 * (Z.pos T * 2 ^ (eT + 66)) * (2 ^ 52 - 1) →
  (Z.pos p = n0 →
   SFltb (S754_finite false T eT)
         (Prim2SF (numstr_number (Fixed false (Z.pos p)))) = false) →
  SFltb (S754_finite false T eT) (Prim2SF (numstr_number (Fixed false (Z.pos p))))
  = (n0 <? Z.pos p).
Proof.
  intros Hp HT HeT Hup Hdown Hexact.
  destruct (Z.eq_dec (Z.pos p) n0) as [E | E].
  { rewrite (Hexact E). symmetry. apply Z.ltb_ge. lia. }
  destruct (numstr_number_spec false p Hp)
    as (mr & er & u & -> & Hmr & Her & Hu & Hulp & Hlo & Hhi).
  rewrite SFltb_canonical by lia.
  set (V := Z.pos mr * 2 ^ (er + 66)) in *.
  set (Thr := Z.pos T * 2 ^ (eT + 66)) in *.
  clearbody V Thr.
  destruct (Z.ltb_spec n0 (Z.pos p)) as [G | G].
  - apply Z.ltb_lt. lia.
  - apply Z.ltb_ge. lia.
Qed.

Lemma half_and_tenth_constants :
  Prim2SF 1.5 = S754_finite false 6755399441055744 (-52)
  ∧ Prim2SF 0.7 = S754_finite false 6305039478318694 (-53)
  ∧ Prim2SF (numstr_number (Fixed false 15000)) = S754_finite false 6755399441055744 (-52)
  ∧ Prim2SF (numstr_number (Fixed false 7000)) = S754_finite false 6305039478318694 (-53).
Proof. repeat split; reflexivity. Qed.

Lemma above_15000 p :
  Z.pos p < 10 ^ 25 →
  (1.5 <? numstr_number (Fixed false (Z.pos p)))%float = (15000 <? Z.pos p).
Proof.
  intros Hp. rewrite ltb_spec.
  rewrite (proj1 half_and_tenth_constants).
  apply above_threshold; try assumption; try (simpl; lia).
  intros E. injection E as ->.
  rewrite (proj1 (proj2 (proj2 half_and_tenth_constants))). reflexivity.
Qed.

Lemma above_7000 p :
  Z.pos p < 10 ^ 25 →
  (0.7 <? numstr_number (Fixed false (Z.pos p)))%float = (7000 <? Z.pos p).
Proof.
  intros Hp. rewrite ltb_spec.
  rewrite (proj1 (proj2 half_and_tenth_constants)).
  apply above_threshold; try assumption; try (simpl; lia).
  intros E. injection E as ->.
  rewrite (proj2 (proj2 (proj2 half_and_tenth_constants))). reflexivity.
Qed.

Lemma negative_text_not_above T eT p :
  Z.pos p < 10 ^ 25 →
  SFltb (S754_finite false T eT) (Prim2SF (numstr_number (Fixed true (Z.pos p)))) = false.
Proof.
  intros Hp. destruct (numstr_number_spec true p Hp) as (mr & er & u & -> & _).
  reflexivity.
Qed.

(** The colour rule on the printed text. *)
Lemma highlight_by_text neg n :
  n < 10 ^ 25 →
  (1.5 <? numstr_number (Fixed neg n))%float = negb neg && (15000 <? n)
  ∧ (0.7 <? numstr_number (Fixed neg n))%float = negb neg && (7000 <? n).
Proof.
  intros Hn. destruct n as [|p|p].
  - destruct neg; split; reflexivity.
  - destruct neg.
    + rewrite !ltb_spec, (proj1 half_and_tenth_constants),
        (proj1 (proj2 half_and_tenth_constants)), !negative_text_not_above by assumption.
      split; reflexivity.
    + rewrite above_15000, above_7000 by assumption. split; reflexivity.
  - destruct neg; split; reflexivity.
Qed.

Lemma toFixed4_range x neg n :
  toFixed4 x = Fixed neg n → 0 <= n < 10 ^ 25.
Proof.
  unfold toFixed4. pose proof (Prim2SF_valid x) as Hv.
  rewrite ltb_spec, abs_spec, Prim2SF_1e21.
  destruct (Prim2SF x) as [s|s| |s m e]; try discriminate.
  - intros H. injection H as _ <-. simpl. lia.
  - simpl SFabs.
    destruct (SFltb (S754_finite false m e) (S754_finite false 7629394531250000 17)) eqn:Hlt;
      [|discriminate].
    intros H. injection H as _ <-.
    assert (Hm : Z.pos m < 2 ^ 53).
    { unfold valid_binary, bounded, canonical_mantissa in Hv.
      apply andb_prop in Hv as [Hc _]. apply Z.eqb_eq in Hc.
      rewrite digits2_log2 in Hc.
      assert (Z.log2 (Z.pos m) < 53) by (unfold fexp, emin, prec, emax in Hc; lia).
      apply Z.log2_lt_pow2; lia. }
    clear Hv.
    assert (He : e < 17 ∨ (e = 17 ∧ Z.pos m < 7629394531250000)).
    { unfold SFltb, SFcompare in Hlt.
      destruct (Z.compare_spec e 17) as [E | E | E]; try discriminate Hlt.
      - right. split; [exact E|]. rewrite compare_cont_Z in Hlt.
        destruct (Z.compare_spec (Z.pos m) (Z.pos 7629394531250000)) as [E' | E' | E'];
          try discriminate Hlt. exact E'.
      - left. exact E. }
    clear Hlt. unfold nearest4.
    destruct (Z.leb_spec 0 e) as [G | G].
    + assert (Hval : Z.pos m * 2 ^ e < 10 ^ 21).
      { destruct He as [He | [-> He]].
        - assert (2 ^ e <= 2 ^ 16) by (apply Z.pow_le_mono_r; lia).
          assert (0 < 2 ^ e) by (apply Z.pow_pos_nonneg; lia).
          assert (Z.pos m * 2 ^ e <= Z.pos m * 2 ^ 16)
            by (apply Z.mul_le_mono_nonneg_l; lia).
          change (2 ^ 16) with 65536 in *. change (2 ^ 53) with 9007199254740992 in *.
          change (10 ^ 21) with 1000000000000000000000. lia.
        - simpl. lia. }
      assert (0 < 2 ^ e) by (apply Z.pow_pos_nonneg; lia).
      split; [|simpl in *; lia].
      apply Z.mul_nonneg_nonneg; [apply Z.mul_nonneg_nonneg|]; lia.
    + assert (Hp : 0 < 2 ^ (- e)) by (apply Z.pow_pos_nonneg; lia).
      replace (1 - e) with (- e + 1) by lia. rewrite Z.pow_add_r by lia.
      change (2 ^ 1) with 2. split.
      * apply Z.div_pos; lia.
      * assert ((2 * (Z.pos m * 10000) + 2 ^ (- e)) / (2 ^ (- e) * 2)
                <= Z.pos m * 10000 + 1).
        { apply Z.div_le_upper_bound; [lia|].
          assert (2 * (Z.pos m * 10000) <= 2 ^ (- e) * 2 * (Z.pos m * 10000)).
          { replace (2 * (Z.pos m * 10000)) with (1 * (2 * (Z.pos m * 10000))) at 1 by ring.
            replace (2 ^ (- e) * 2 * (Z.pos m * 10000))
              with (2 ^ (- e) * (2 * (Z.pos m * 10000))) by ring.
            apply Z.mul_le_mono_nonneg_r; lia. }
          lia. }
        simpl in *. lia.
Qed.

(** X11: for every snapshot whose two rates are printed with four decimals,
    the AUD-per-EUR line is highlighted exactly when its printed digits are above
    1.5000 and the EUR-per-AUD line exactly when they are above 0.7000; a
    negative value is never highlighted.  The digits are [n], the printed
    value in ten-thousandths. *)
Theorem highlight_follows_printed_digits rt t a e neg1 n1 neg2 n2 :
  truthy (JNum a) = true → truthy (JNum e) = true →
  toFixed4 (a / e) = Fixed neg1 n1 →
  toFixed4 (1 / (a / e)) = Fixed neg2 n2 →
  showResult rt (snapshot t a e) =
    ([ConsoleLog (MSummary {|
        lastUpdated := newDate (t * 1000);
        eurAud := (pick_colour (negb neg1 && (15000 <? n1)), Fixed neg1 n1);
        audEur := (pick_colour (negb neg2 && (7000 <? n2)), Fixed neg2 n2) |})],
     Ok tt).
Proof.
  intros Ha He H1 H2.
  rewrite showResult_snapshot by assumption.
  rewrite H1, H2.
  pose proof (toFixed4_range _ _ _ H1) as R1.
  pose proof (toFixed4_range _ _ _ H2) as R2.
  rewrite (proj1 (highlight_by_text neg1 n1 (proj2 R1))).
  rewrite (proj2 (highlight_by_text neg2 n2 (proj2 R2))).
  reflexivity.
Qed.

Lemma highlight_follows_printed_digits_witness :
  showResult sample_runtime (snapshot 1700000000 1.6 1) =
    ([ConsoleLog (MSummary {|
        lastUpdated := newDate (1700000000 * 1000);
        eurAud := (green_blink, Fixed false 16000);
        audEur := (magenta, Fixed false 6250) |})],
     Ok tt).
Proof.
  apply (highlight_follows_printed_digits sample_runtime 1700000000 1.6 1
           false 16000 false 6250); reflexivity.
Defined.
